(** * A verification model of [main.py]

    The program is two processes: an HTTP server ([HTTPRequestHandler],
    port 3000) that serves static pages and forwards a submitted form
    over TCP, and a socket server ([socket_server], port 5001) that reads
    one JSON message per connection and stores it in MongoDB.

    Python values are carried as follows.
    - [bytes] and [str] are both Rocq strings.  A [str] is carried by its
      UTF-8 text, so comparison with an ASCII literal, emptiness and
      concatenation mean what they mean in Python.
    - a [dict] that is written out or sent is the list of its items, in
      insertion order; a [dict] that is only looked up, and a record that
      the datastore keeps, is a [gmap].
    - an exception is a class tag with its message, [str(e)].
    - code that performs I/O runs in a state-and-exception monad: the
      state records the calls made and the output written, the outcome
      of each external call is read from an environment. *)

From stdpp Require Import gmap strings list fin_maps.
From Stdlib Require Import ZArith Ascii String.

#[local] Set Warnings "-register-all".
#[local] Open Scope string_scope.

Abbreviation bytes := string (only parsing).
Abbreviation str := string (only parsing).

(** ** Exceptions and results *)

(** The exception classes the program can meet.  All of them derive from
    [Exception]; [JSONDecodeError] and [UnicodeDecodeError] derive from
    [ValueError]. *)
Inductive exn_class :=
| OSError
| ValueError
| UnicodeDecodeError
| JSONDecodeError
| AttributeError
| IndexError
| RecursionError
| OverflowError
| PyMongoError.

Record exn := Exn { exn_cls : exn_class; exn_text : str }.

(** [isinstance(e, json.JSONDecodeError)]: the class has no subclass. *)
Definition is_JSONDecodeError (e : exn) : bool :=
  match exn_cls e with
  | JSONDecodeError => true
  | _ => false
  end.

Inductive res (A : Type) :=
| Ok (a : A)
| Raise (e : exn).
Arguments Ok {A} a.
Arguments Raise {A} e.

(** ** The monad of effectful code

    A computation takes the state and gives a result with the new state.
    A raised exception keeps the state reached so far, as in Python. *)
Definition M (S A : Type) : Type := S -> res A * S.

#[global] Instance M_ret {S} : MRet (M S) := fun A a s => (Ok a, s).

#[global] Instance M_bind {S} : MBind (M S) := fun A B f c s =>
  match c s with
  | (Ok a, s') => f a s'
  | (Raise e, s') => (Raise e, s')
  end.

Definition raise {S A} (e : exn) : M S A := fun s => (Raise e, s).

(** A value computed by a library function that may raise. *)
Definition lift {S A} (r : res A) : M S A := fun s => (r, s).

(** A change of the state that cannot fail. *)
Definition effect {S} (f : S -> S) : M S unit := fun s => (Ok tt, f s).

(** [try: body / except Exception as e: handler e]. *)
Definition try_except {S A} (body : M S A) (handler : exn -> M S A) : M S A :=
  fun s =>
    match body s with
    | (Ok a, s') => (Ok a, s')
    | (Raise e, s') => handler e s'
    end.

(** The outcome of a computation, as a value: what a [try] statement
    looks at when its body ends. *)
Definition caught {S A} (c : M S A) : M S (res A) :=
  fun s =>
    match c s with
    | (r, s') => (Ok r, s')
    end.

(** [try: body / finally: fin]: [fin] always runs; the result of [body],
    value or exception, is kept unless [fin] raises itself. *)
Definition try_finally {S A} (body : M S A) (fin : M S unit) : M S A :=
  fun s =>
    match body s with
    | (r, s') =>
        match fin s' with
        | (Ok _, s'') => (r, s'')
        | (Raise e, s'') => (Raise e, s'')
        end
    end.

(** ** JSON values, as [json.loads] returns them

    A number keeps its lexeme: the program never computes with it. *)
Inductive json :=
| JNull
| JBool (b : bool)
| JNum (lexeme : str)
| JStr (s : str)
| JArr (xs : list json)
| JObj (items : list (str * json)).

(** A value of a document: a value that [json.loads] gave or a text of
    the program, or the identifier that [insert_one] generates. *)
Inductive bson :=
| Json (v : json)
| ObjectId (hex : str).

(** [d.get(key)] on the items of a dict. *)
Fixpoint dict_get {V} (key : str) (items : list (str * V)) : option V :=
  match items with
  | [] => None
  | (k, v) :: items' => if (k =? key)%string then Some v else dict_get key items'
  end.

(** [d[key] = v]: the value is replaced where the key stands, or the item
    is added at the end. *)
Fixpoint dict_set {V} (key : str) (v : V) (items : list (str * V)) : list (str * V) :=
  match items with
  | [] => [(key, v)]
  | (k, v') :: items' =>
      if (k =? key)%string then (k, v) :: items' else (k, v') :: dict_set key v items'
  end.

(** ** The library functions the program calls

    [urllib], [json], the codecs and [http.server] are not part of the
    repository; the program is verified for every implementation of
    them. *)
Class PyLib := {
  (** [urllib.parse.urlparse(s).path]; [urlparse] raises on a target it
      cannot split, such as one with an unclosed bracket *)
  urlparse_path : str -> res str;
  (** [int(s)] on a header value *)
  py_int : str -> res Z;
  (** [b.decode("utf-8")] *)
  utf8_decode : bytes -> res str;
  (** [s.encode("utf-8")] *)
  utf8_encode : str -> bytes;
  (** [urllib.parse.parse_qs(s)] *)
  parse_qs : str -> gmap string (list str);
  (** [json.dumps(v)] *)
  json_dumps : json -> str;
  (** [json.loads(s)] *)
  json_loads : str -> res json;
  (** the page [BaseHTTPRequestHandler.send_error] writes for a code and
      a message *)
  error_page : Z -> str -> bytes;
  (** [str(d)] of a dict, as an f-string prints it *)
  repr_dict : list (str * bson) -> str;
}.

(** ** Decimal text of a number *)

Definition digit (n : Z) : string :=
  String (ascii_of_N (Z.to_N (48 + n mod 10))) "".

(** The digits of [n > 0], most significant first; [fuel] bounds their
    number. *)
Fixpoint decimal_digits (fuel : nat) (n : Z) : string :=
  match fuel with
  | O => ""
  | S fuel' =>
      if (n <=? 0)%Z then "" else decimal_digits fuel' (n / 10) ++ digit n
  end.

(** A number has no more decimal digits than binary ones. *)
Definition digit_fuel (n : Z) : nat := S (Z.to_nat (Z.log2 n)).

(** [str(n)] *)
Definition str_of_int (n : Z) : string :=
  if (n =? 0)%Z then "0"
  else if (n <? 0)%Z then "-" ++ decimal_digits (digit_fuel (- n)) (- n)
  else decimal_digits (digit_fuel n) n.

(** [n >= 0] printed with at least [w] digits, zero-filled ([%0wd]). *)
Fixpoint zero_fill (w : nat) (n : Z) : string :=
  match w with
  | O => decimal_digits (digit_fuel n) n
  | S w' => zero_fill w' (n / 10) ++ digit n
  end.

(** ** Configuration *)

Definition HTTP_PORT : Z := 3000.
Definition SOCKET_PORT : Z := 5001.
Definition FRONT_DIR : str := "front-init".
Definition MONGO_DB : str := "messages_db".
Definition MONGO_COLLECTION : str := "messages".

(** [os.path.join(d, name)] for a relative [name]. *)
Definition os_path_join (d name : str) : str := d ++ "/" ++ name.

(** ** The HTTP request handler *)

Module Http.

(** What the handler is given: the request target ([self.path]), the
    value of the Content-Length header when there is one, and the bytes
    the client sends after the headers ([self.rfile]). *)
Record request := {
  req_path : str;
  req_content_length : option str;
  req_rfile : bytes;
}.

(** What stands at a path of the file system: a file that can be read,
    with its content, or something that exists and that [open] or [read]
    refuses with an error (a directory, a file of another user). *)
Inductive entry :=
| Regular (content : bytes)
| Unreadable (err : exn).

(** What the handler finds around it: the file system, by path, and how
    the ingest server answers [connect] and [sendall] ([None]: the call
    returns, [Some e]: it raises [e]). *)
Record env := {
  files : gmap string entry;
  connect_outcome : option exn;
  sendall_outcome : option exn;
}.

(** The calls made on the outbound socket. *)
Inductive sock_call :=
| SockCreate
| SockConnect (host : str) (port : Z)
| SockSendall (data : bytes)
| SockClose.

(** What is written to the client.  [SendResponse] stands for the status
    line with the Server and Date headers that [send_response] adds. *)
Inductive out_event :=
| SendResponse (code : Z)
| SendHeader (keyword value : str)
| EndHeaders
| Write (body : bytes).

Record state := {
  sock_calls : list sock_call;
  output : list out_event;
}.

Definition initial : state := {| sock_calls := []; output := [] |}.

Definition out (ev : out_event) : M state unit :=
  effect (fun st => {| sock_calls := sock_calls st; output := output st ++ [ev] |}).

Definition sock (c : sock_call) : M state unit :=
  effect (fun st => {| sock_calls := sock_calls st ++ [c]; output := output st |}).

Definition send_response (code : Z) : M state unit := out (SendResponse code).
Definition send_header (keyword value : str) : M state unit := out (SendHeader keyword value).
Definition end_headers : M state unit := out EndHeaders.
Definition wfile_write (b : bytes) : M state unit := out (Write b).

(** The status of the response: the code of the first status line. *)
Fixpoint status_of (evs : list out_event) : option Z :=
  match evs with
  | [] => None
  | SendResponse code :: _ => Some code
  | _ :: evs' => status_of evs'
  end.

(** The body of the response: everything written after the headers. *)
Fixpoint body_of (evs : list out_event) : bytes :=
  match evs with
  | [] => ""
  | Write b :: evs' => b ++ body_of evs'
  | _ :: evs' => body_of evs'
  end.

(** The outbound connections opened: the [connect] calls. *)
Fixpoint connects (calls : list sock_call) : list sock_call :=
  match calls with
  | [] => []
  | SockConnect host port :: calls' => SockConnect host port :: connects calls'
  | _ :: calls' => connects calls'
  end.

(** The bytes handed to [sendall], in order. *)
Fixpoint sent_bytes (calls : list sock_call) : bytes :=
  match calls with
  | [] => ""
  | SockSendall data :: calls' => data ++ sent_bytes calls'
  | _ :: calls' => sent_bytes calls'
  end.

Section Handler.
Context `{PyLib}.
Variable e : env.

Definition os_path_exists (p : str) : bool :=
  match files e !! p with
  | Some _ => true
  | None => false
  end.

(** [open(p, "rb").read()] *)
Definition read_file (p : str) : M state bytes :=
  match files e !! p with
  | Some (Regular content) => mret content
  | Some (Unreadable err) => raise err
  | None => raise (Exn OSError ("[Errno 2] No such file or directory: '" ++ p ++ "'"))
  end.

(** Whether [BaseHTTPRequestHandler.send_error] writes a page for a
    code: 200 and above, except 204, 205 and 304. *)
Definition carries_body (code : Z) : bool :=
  (200 <=? code)%Z && negb ((code =? 204)%Z || (code =? 205)%Z || (code =? 304)%Z).

(** [BaseHTTPRequestHandler.send_error].  [command] is [self.command],
    the method of the request: the page is built for a code that carries
    a body, and written unless the request is a HEAD. *)
Definition base_send_error (command : str) (code : Z) (message : str) : M state unit :=
  send_response code;;
  send_header "Connection" "close";;
  if carries_body code then
    let body := error_page code message in
    send_header "Content-Type" "text/html;charset=utf-8";;
    send_header "Content-Length" (str_of_int (Z.of_nat (String.length body)));;
    end_headers;;
    if negb (command =? "HEAD")%string && negb (body =? "")%string
    then wfile_write body
    else mret tt
  else end_headers.

Definition send_error (command : str) (code : Z) (message : str) : M state unit :=
  if (code =? 404)%Z then
    let error_file := os_path_join FRONT_DIR "error.html" in
    if os_path_exists error_file then
      send_response 404;;
      send_header "Content-type" "text/html";;
      end_headers;;
      content ← read_file error_file;
      wfile_write content
    else base_send_error command code message
  else base_send_error command code message.

Definition serve_file (command : str) (filename content_type : str) : M state unit :=
  let filepath := os_path_join FRONT_DIR filename in
  if os_path_exists filepath then
    send_response 200;;
    send_header "Content-type" content_type;;
    end_headers;;
    content ← read_file filepath;
    wfile_write content
  else send_error command 404 "Not Found".

(** [do_GET] is the method that the server calls for a request whose
    method is GET: in it [self.command] is "GET". *)
Definition do_GET (req : request) : M state unit :=
  path ← lift (urlparse_path (req_path req));
  if (path =? "/")%string || (path =? "/index.html")%string then
    serve_file "GET" "index.html" "text/html"
  else if (path =? "/message.html")%string then
    serve_file "GET" "message.html" "text/html"
  else if (path =? "/style.css")%string then
    serve_file "GET" "style.css" "text/css"
  else if (path =? "/logo.png")%string then
    serve_file "GET" "logo.png" "image/png"
  else send_error "GET" 404 "Not Found".

Definition sock_connect (host : str) (port : Z) : M state unit :=
  sock (SockConnect host port);;
  match connect_outcome e with
  | Some err => raise err
  | None => mret tt
  end.

Definition sock_sendall (data : bytes) : M state unit :=
  sock (SockSendall data);;
  match sendall_outcome e with
  | Some err => raise err
  | None => mret tt
  end.

(** The dict that [send_to_socket_server] serialises. *)
Definition payload (username message : str) : json :=
  JObj [("username", JStr username); ("message", JStr message)].

Definition send_to_socket_server (username message : str) : M state unit :=
  let data := payload username message in
  let json_data := utf8_encode (json_dumps data) in
  sock SockCreate;;
  try_finally
    (sock_connect "localhost" SOCKET_PORT;;
     sock_sendall json_data)
    (sock SockClose).

(** [int(self.headers.get("Content-Length", 0))] *)
Definition content_length_of (req : request) : res Z :=
  match req_content_length req with
  | Some v => py_int v
  | None => Ok 0%Z
  end.

(** [self.rfile.read(n)]: [n] bytes, or what the client sent when that is
    less; everything up to the end of the stream for -1; a buffered
    reader refuses a length below -1, and a length that does not fit a
    machine word (64 bits, signed) is refused before that. *)
Definition rfile_read (req : request) (n : Z) : res bytes :=
  if ((n <? - 2 ^ 63) || (2 ^ 63 - 1 <? n))%Z then
    Raise (Exn OverflowError "cannot fit 'int' into an index-sized integer")
  else if (0 <=? n)%Z then Ok (String.substring 0 (Z.to_nat n) (req_rfile req))
  else if (n =? -1)%Z then Ok (req_rfile req)
  else Raise (Exn ValueError "read length must be non-negative or -1").

(** Lines 58 to 60: the decoded form. *)
Definition read_form (req : request) : res (gmap string (list str)) :=
  match content_length_of req with
  | Raise err => Raise err
  | Ok content_length =>
      match rfile_read req content_length with
      | Raise err => Raise err
      | Ok post_data =>
          match utf8_decode post_data with
          | Raise err => Raise err
          | Ok text => Ok (parse_qs text)
          end
      end
  end.

(** [form_data.get(name, [""])[0]] *)
Definition form_field (form_data : gmap string (list str)) (name : str) : res str :=
  match default [""] (form_data !! name) with
  | v :: _ => Ok v
  | [] => Raise (Exn IndexError "list index out of range")
  end.

(** The truth value of a [str]. *)
Definition truthy (s : str) : bool := negb (s =? "")%string.

(** In [do_POST], [self.command] is "POST". *)
Definition do_POST (req : request) : M state unit :=
  path ← lift (urlparse_path (req_path req));
  if (path =? "/message")%string then
    form_data ← lift (read_form req);
    username ← lift (form_field form_data "username");
    message ← lift (form_field form_data "message");
    if truthy username && truthy message then
      try_except
        (send_to_socket_server username message;;
         send_response 200;;
         send_header "Content-type" "text/html";;
         end_headers;;
         wfile_write "Message sent successfully!")
        (fun err =>
           send_response 500;;
           send_header "Content-type" "text/html";;
           end_headers;;
           wfile_write (utf8_encode ("Error: " ++ exn_text err)))
    else
      send_response 400;;
      send_header "Content-type" "text/html";;
      end_headers;;
      wfile_write "Username and message are required"
  else send_error "POST" 404 "Not Found".

End Handler.

End Http.

(** ** The socket server *)

Module Ingest.

(** A reading of [datetime.now()]. *)
Record datetime := {
  year : Z;
  month : Z;
  day : Z;
  hour : Z;
  minute : Z;
  second : Z;
  microsecond : Z;
}.

(** [dt.strftime("%Y-%m-%d %H:%M:%S.%f")] *)
Definition strftime (dt : datetime) : str :=
  zero_fill 4 (year dt) ++ "-" ++ zero_fill 2 (month dt) ++ "-" ++ zero_fill 2 (day dt)
  ++ " " ++ zero_fill 2 (hour dt) ++ ":" ++ zero_fill 2 (minute dt) ++ ":"
  ++ zero_fill 2 (second dt) ++ "." ++ zero_fill 6 (microsecond dt).

(** What one [recv] gives: some bytes (none when the peer has closed its
    side) or an error. *)
Inductive recv_result :=
| Chunk (data : bytes)
| RecvError (e : exn).

(** One accepted connection, as the server meets it: the peer's address
    as [print] shows it, the results of the successive [recv] calls (after
    the last one the peer has closed), the clock when the document is
    built, the identifier that the driver generates for the document and
    the datastore's answer to the insert. *)
Record connection := {
  address : str;
  recvs : list recv_result;
  now : datetime;
  new_id : str;
  insert_outcome : option exn;
}.

(** What one call of [accept] gives. *)
Inductive incoming :=
| AcceptError (e : exn)
| Accepted (c : connection).

(** The configuration read from the process environment and the answers
    of the outside world during start-up: at each attempt, the outcome
    of the constructor of [MongoClient] (it raises on an address that it
    cannot use, such as a port above 65535) and that of [server_info()];
    the outcome of [bind]. *)
Record env := {
  MONGO_HOST : str;
  MONGO_PORT : Z;
  client_outcome : nat -> option exn;
  server_info_outcome : nat -> option exn;
  bind_outcome : option exn;
}.

(** A dict of the program that goes to the datastore: its items, in
    insertion order. *)
Abbreviation document := (list (str * bson)) (only parsing).

(** A record that the datastore keeps: its fields, by name. *)
Abbreviation record := (gmap string bson) (only parsing).

(** The external calls the server makes. *)
Inductive call :=
| MongoClient (uri : str) (serverSelectionTimeoutMS : Z)
| ServerInfo
| Sleep (seconds : Z)
| Socket
| Setsockopt
| Bind (host : str) (port : Z)
| Listen (backlog : Z)
| Accept
| Recv (bufsize : Z)
| Close
| InsertOne (doc : document).

Record state := {
  collection : list record;
  stdout : list str;
  calls : list call;
}.

Definition initial : state := {| collection := []; stdout := []; calls := [] |}.

Definition print (line : str) : M state unit :=
  effect (fun st =>
    {| collection := collection st; stdout := stdout st ++ [line]; calls := calls st |}).

Definition do_call (c : call) : M state unit :=
  effect (fun st =>
    {| collection := collection st; stdout := stdout st; calls := calls st ++ [c] |}).

Definition store (doc : document) : M state unit :=
  effect (fun st =>
    {| collection := collection st ++ [list_to_map doc];
       stdout := stdout st; calls := calls st |}).

Definition max_retries : nat := 30.
Definition retry_delay : Z := 1.

(** The handle [MongoClient] returns. *)
Inductive mongo_client := Client (uri : str).

(** How an iteration of the [for] loop ends. *)
Inductive step_exit :=
| Break
| Continue
| Return.

(** How the [for] loop ends: it is left, with the binding of [client],
    or the function has returned from inside it. *)
Inductive for_exit :=
| LoopLeft (client : option mongo_client)
| FunctionReturned.

(** How a run of [socket_server] stands after a finite number of
    accepted connections. *)
Inductive server_exit :=
| Returned
| Serving.

(** The number of [Bind] calls among the calls made. *)
Fixpoint binds (cs : list call) : nat :=
  match cs with
  | [] => 0
  | Bind _ _ :: cs' => S (binds cs')
  | _ :: cs' => binds cs'
  end.

(** The documents handed to [insert_one], in order. *)
Fixpoint inserts (cs : list call) : list document :=
  match cs with
  | [] => []
  | InsertOne doc :: cs' => doc :: inserts cs'
  | _ :: cs' => inserts cs'
  end.

(** The number of [accept] calls among the calls made. *)
Fixpoint accepts (cs : list call) : nat :=
  match cs with
  | [] => 0
  | Accept :: cs' => S (accepts cs')
  | _ :: cs' => accepts cs'
  end.

(** Whether a number lexeme is read as a [float]. *)
Fixpoint is_float_lexeme (l : str) : bool :=
  match l with
  | EmptyString => false
  | String c l' =>
      (c =? ".")%char || (c =? "e")%char || (c =? "E")%char
      || (c =? "N")%char || (c =? "I")%char || is_float_lexeme l'
  end.

(** [type(v).__name__] *)
Definition type_name (v : json) : str :=
  match v with
  | JNull => "NoneType"
  | JBool _ => "bool"
  | JNum l => if is_float_lexeme l then "float" else "int"
  | JStr _ => "str"
  | JArr _ => "list"
  | JObj _ => "dict"
  end.

(** [v.get(key, dflt)]: only a dict has the method. *)
Definition get (v : json) (key : str) (dflt : json) : res json :=
  match v with
  | JObj items => Ok (default dflt (dict_get key items))
  | _ => Raise (Exn AttributeError ("'" ++ type_name v ++ "' object has no attribute 'get'"))
  end.

Section Server.
Context `{PyLib}.
Variable e : env.

Definition mongo_uri : str :=
  "mongodb://" ++ MONGO_HOST e ++ ":" ++ str_of_int (MONGO_PORT e) ++ "/".

(** [MongoClient(uri, serverSelectionTimeoutMS=2000)] at attempt
    [attempt]. *)
Definition new_client (attempt : nat) : M state mongo_client :=
  do_call (MongoClient mongo_uri 2000);;
  match client_outcome e attempt with
  | Some err => raise err
  | None => mret (Client mongo_uri)
  end.

(** [client.server_info()] at attempt [attempt]. *)
Definition server_info (attempt : nat) : M state unit :=
  do_call ServerInfo;;
  match server_info_outcome e attempt with
  | Some err => raise err
  | None => mret tt
  end.

(** The [except] clause of the loop, at attempt [attempt]. *)
Definition except_clause (attempt : nat) (err : exn) : M state step_exit :=
  if Nat.ltb attempt (max_retries - 1) then
    print ("Waiting for MongoDB... (attempt "
           ++ str_of_int (Z.of_nat attempt + 1) ++ "/"
           ++ str_of_int (Z.of_nat max_retries) ++ ")");;
    do_call (Sleep retry_delay);;
    mret Continue
  else
    print ("Error connecting to MongoDB after "
           ++ str_of_int (Z.of_nat max_retries) ++ " attempts: "
           ++ exn_text err);;
    mret Return.

(** The [for attempt in range(max_retries)] loop, over the attempts left.
    The body of the [try] is the construction of the client, the check
    and [break]; an exception of either call goes to the [except] clause.
    [client] is assigned when the constructor returns: when it raises,
    the name keeps the binding that it had. *)
Fixpoint connect_loop (attempts : list nat) (client : option mongo_client)
    : M state for_exit :=
  match attempts with
  | [] => mret (LoopLeft client)
  | attempt :: rest =>
      constructed ← caught (new_client attempt);
      let client :=
        match constructed with
        | Ok c => Some c
        | Raise _ => client
        end in
      exit ← match constructed with
             | Ok _ =>
                 try_except
                   (server_info attempt;;
                    mret Break)
                   (except_clause attempt)
             | Raise err => except_clause attempt err
             end;
      match exit with
      | Break => mret (LoopLeft client)
      | Continue => connect_loop rest client
      | Return => mret FunctionReturned
      end
  end.

(** [server_socket.accept()] *)
Definition accept (inc : incoming) : M state connection :=
  do_call Accept;;
  match inc with
  | AcceptError err => raise err
  | Accepted c => mret c
  end.

(** The inner [while True] loop: [recv] until it gives no bytes. *)
Fixpoint recv_all (script : list recv_result) (data : bytes) : M state bytes :=
  match script with
  | [] => do_call (Recv 1024);; mret data
  | Chunk chunk :: rest =>
      do_call (Recv 1024);;
      if (chunk =? "")%string then mret data else recv_all rest (data ++ chunk)
  | RecvError err :: _ => do_call (Recv 1024);; raise err
  end.

(** [collection.insert_one(document)].  The driver first adds to the
    dict that it is given, in place, an item ["_id"] with a new
    identifier, unless the dict has one; then it sends the dict, and the
    datastore keeps its fields.  The call is recorded with the dict as it
    is passed; the result is the dict as the call leaves it, which is
    what the name [document] of the caller denotes afterwards. *)
Definition insert_one (c : connection) (doc : document) : M state document :=
  do_call (InsertOne doc);;
  let doc :=
    match dict_get "_id" doc with
    | Some _ => doc
    | None => dict_set "_id" (ObjectId (new_id c)) doc
    end in
  match insert_outcome c with
  | Some err => raise err
  | None => store doc;; mret doc
  end.

(** The body of the accept loop: one pass of [while True]. *)
Definition serve_one (inc : incoming) : M state unit :=
  try_except
    (c ← accept inc;
     print ("Connection from " ++ address c);;
     data ← recv_all (recvs c) "";
     try_except
       (text ← lift (utf8_decode data);
        json_data ← lift (json_loads text);
        username ← lift (get json_data "username" (JStr ""));
        message ← lift (get json_data "message" (JStr ""));
        let doc : document :=
          [("date", Json (JStr (strftime (now c))));
           ("username", Json username);
           ("message", Json message)] in
        doc ← insert_one c doc;
        print ("Saved message: " ++ repr_dict doc))
       (fun err =>
          if is_JSONDecodeError err then
            print ("Error parsing JSON: " ++ exn_text err)
          else
            print ("Error saving to MongoDB: " ++ exn_text err));;
     do_call Close)
    (fun err => print ("Error in socket server: " ++ exn_text err)).

(** The accept loop over the connections that arrive. *)
Fixpoint accept_loop (arrivals : list incoming) : M state unit :=
  match arrivals with
  | [] => mret tt
  | inc :: rest => serve_one inc;; accept_loop rest
  end.

(** [server_socket.bind(("0.0.0.0", SOCKET_PORT))] *)
Definition bind (host : str) (port : Z) : M state unit :=
  do_call (Bind host port);;
  match bind_outcome e with
  | Some err => raise err
  | None => mret tt
  end.

Definition socket_server (arrivals : list incoming) : M state server_exit :=
  exit ← connect_loop (seq 0 max_retries) None;
  match exit with
  | FunctionReturned => mret Returned
  | LoopLeft None =>
      print "Failed to connect to MongoDB";;
      mret Returned
  | LoopLeft (Some client) =>
      print ("Connected to MongoDB at " ++ MONGO_HOST e ++ ":"
             ++ str_of_int (MONGO_PORT e));;
      do_call Socket;;
      do_call Setsockopt;;
      bind "0.0.0.0" SOCKET_PORT;;
      do_call (Listen 5);;
      print ("Socket server listening on port " ++ str_of_int SOCKET_PORT);;
      accept_loop arrivals;;
      mret Serving
  end.

End Server.

End Ingest.

(** ** A reference implementation of the library

    An executable instance of [PyLib], on which the model can be run on
    concrete requests.  It follows the documented behaviour of the Python
    functions on the inputs the program gives them. *)

Module Ref.

#[local] Open Scope N_scope.

Definition byte_of (a : ascii) : N := N_of_ascii a.
Definition chr (n : N) : string := String (ascii_of_N n) "".

(** *** UTF-8 *)

(** For a lead byte: the range of the second byte and the number of
    continuation bytes after the second. *)
Definition lead_info (b : N) : option (N * N * nat) :=
  if (194 <=? b) && (b <=? 223) then Some (128, 191, 0%nat)
  else if b =? 224 then Some (160, 191, 1%nat)
  else if (225 <=? b) && (b <=? 236) then Some (128, 191, 1%nat)
  else if b =? 237 then Some (128, 159, 1%nat)
  else if (238 <=? b) && (b <=? 239) then Some (128, 191, 1%nat)
  else if b =? 240 then Some (144, 191, 2%nat)
  else if (241 <=? b) && (b <=? 243) then Some (128, 191, 2%nat)
  else if b =? 244 then Some (128, 143, 2%nat)
  else None.

Definition in_range (lo hi : N) (a : ascii) : bool :=
  (lo <=? byte_of a) && (byte_of a <=? hi).

(** The code points of a byte string; [None] stands for a maximal
    ill-formed run. *)
Fixpoint utf8_scan (s : string) : list (option N) :=
  match s with
  | EmptyString => []
  | String a r =>
      let b := byte_of a in
      if b <? 128 then Some b :: utf8_scan r
      else
        match lead_info b with
        | None => None :: utf8_scan r
        | Some (lo, hi, more) =>
            match r with
            | EmptyString => [None]
            | String c r1 =>
                if negb (in_range lo hi c) then None :: utf8_scan r
                else
                  match more with
                  | O => Some ((b - 192) * 64 + (byte_of c - 128)) :: utf8_scan r1
                  | S O =>
                      match r1 with
                      | EmptyString => [None]
                      | String d r2 =>
                          if in_range 128 191 d then
                            Some ((b - 224) * 4096 + (byte_of c - 128) * 64
                                  + (byte_of d - 128)) :: utf8_scan r2
                          else None :: utf8_scan r1
                      end
                  | _ =>
                      match r1 with
                      | EmptyString => [None]
                      | String d r2 =>
                          if in_range 128 191 d then
                            match r2 with
                            | EmptyString => [None]
                            | String f r3 =>
                                if in_range 128 191 f then
                                  Some ((b - 240) * 262144 + (byte_of c - 128) * 4096
                                        + (byte_of d - 128) * 64 + (byte_of f - 128))
                                  :: utf8_scan r3
                                else None :: utf8_scan r2
                            end
                          else None :: utf8_scan r1
                      end
                  end
            end
        end
  end.

(** The UTF-8 bytes of a code point. *)
Definition utf8_of_point (cp : N) : string :=
  if cp <? 128 then chr cp
  else if cp <? 2048 then chr (192 + cp / 64) ++ chr (128 + cp mod 64)
  else if cp <? 65536 then
    chr (224 + cp / 4096) ++ chr (128 + (cp / 64) mod 64) ++ chr (128 + cp mod 64)
  else
    chr (240 + cp / 262144) ++ chr (128 + (cp / 4096) mod 64)
    ++ chr (128 + (cp / 64) mod 64) ++ chr (128 + cp mod 64).

Definition is_some {A} (o : option A) : bool :=
  match o with Some _ => true | None => false end.

(** Strict decoding: the bytes are the text when they are well formed. *)
Definition decode (b : bytes) : res str :=
  if forallb is_some (utf8_scan b) then Ok b
  else Raise (Exn UnicodeDecodeError "'utf-8' codec can't decode bytes: invalid data").

(** Decoding with [errors="replace"]: U+FFFD for each ill-formed run. *)
Definition decode_replace (b : bytes) : str :=
  foldr (fun o acc => utf8_of_point (default 65533 o) ++ acc)%string "" (utf8_scan b).

(** *** Splitting *)

(** [s.partition(sep)] for a one-character separator: the text before
    the first separator and, when there is one, the text after it. *)
Fixpoint partition (sep : ascii) (s : string) : string * option string :=
  match s with
  | EmptyString => ("", None)
  | String a r =>
      if (a =? sep)%char then ("", Some r)
      else let (before, after) := partition sep r in (String a before, after)
  end.

(** [s.split(sep)] for a one-character separator. *)
Fixpoint split (sep : ascii) (s : string) : list string :=
  match s with
  | EmptyString => [""%string]
  | String a r =>
      if (a =? sep)%char then ""%string :: split sep r
      else
        match split sep r with
        | piece :: pieces => String a piece :: pieces
        | [] => [String a ""]
        end
  end.

(** *** [urlparse] of a request target in origin form

    The path is what comes before the fragment and the query, without
    the parameters of its last segment. *)
Fixpoint strip_params (s : string) : string :=
  match s with
  | EmptyString => ""
  | String a r =>
      if (a =? "/")%char then String a (strip_params r)
      else if (a =? ";")%char then
        let (_, after) := partition "/" r in
        match after with
        | Some _ => String a (strip_params r)
        | None => ""
        end
      else String a (strip_params r)
  end.

Definition path_of (target : str) : str :=
  strip_params (fst (partition "?" (fst (partition "#" target)))).

(** [urlparse] refuses a target with an opening bracket that is not
    closed, or a closing one that is not opened. *)
Fixpoint has_char (c : ascii) (s : string) : bool :=
  match s with
  | EmptyString => false
  | String a r => (a =? c)%char || has_char c r
  end.

Definition is_scheme_char (a : ascii) : bool :=
  in_range 97 122 a || in_range 65 90 a || in_range 48 57 a
  || (a =? "+")%char || (a =? "-")%char || (a =? ".")%char.

(** What follows the scheme of a target, when it has one: a letter, then
    scheme characters up to a colon. *)
Definition after_scheme (target : str) : str :=
  match target with
  | String a _ =>
      if in_range 97 122 a || in_range 65 90 a then
        match partition ":" target with
        | (scheme, Some rest) =>
            if forallb is_scheme_char (list_ascii_of_string scheme) then rest else target
        | (_, None) => target
        end
      else target
  | EmptyString => target
  end.

(** The network location, up to the first of [/], [?] and [#], with what
    follows it. *)
Fixpoint split_netloc (s : string) : string * string :=
  match s with
  | EmptyString => (""%string, ""%string)
  | String a r =>
      if (a =? "/")%char || (a =? "?")%char || (a =? "#")%char then (""%string, s)
      else let (netloc, rest) := split_netloc r in (String a netloc, rest)
  end.

(** [urlparse(target).path]: [urlparse] refuses a network location with
    an opening bracket that is not closed, or a closing one that is not
    opened. *)
Definition parsed_path (target : str) : res str :=
  match after_scheme target with
  | String a (String b r) =>
      if (a =? "/")%char && (b =? "/")%char then
        let (netloc, rest) := split_netloc r in
        if xorb (has_char "[" netloc) (has_char "]" netloc) then
          Raise (Exn ValueError "Invalid IPv6 URL")
        else Ok (path_of rest)
      else Ok (path_of (after_scheme target))
  | rest => Ok (path_of rest)
  end.

(** *** [int] of a text *)

Definition is_digit (a : ascii) : bool := in_range 48 57 a.
Definition is_space (a : ascii) : bool :=
  (byte_of a =? 32) || ((9 <=? byte_of a) && (byte_of a <=? 13)).

Fixpoint lstrip (s : string) : string :=
  match s with
  | String a r => if is_space a then lstrip r else s
  | EmptyString => ""
  end.

(** Digits, single underscores between them, then white space only. *)
Fixpoint digits_value (s : string) (acc : Z) (after_digit : bool) : option Z :=
  match s with
  | EmptyString => if after_digit then Some acc else None
  | String a r =>
      if is_digit a then
        digits_value r (acc * 10 + Z.of_N (byte_of a - 48))%Z true
      else if (a =? "_")%char then
        if after_digit then
          match r with
          | String d _ => if is_digit d then digits_value r acc false else None
          | EmptyString => None
          end
        else None
      else if is_space a then
        if after_digit && (lstrip r =? "")%string then Some acc else None
      else None
  end.

Definition int_of (s : str) : res Z :=
  let bad := Raise (Exn ValueError ("invalid literal for int() with base 10: '" ++ s ++ "'")) in
  match lstrip s with
  | String a r =>
      if (a =? "-")%char then
        match digits_value r 0 false with Some n => Ok (- n)%Z | None => bad end
      else if (a =? "+")%char then
        match digits_value r 0 false with Some n => Ok n | None => bad end
      else
        match digits_value (String a r) 0 false with Some n => Ok n | None => bad end
  | EmptyString => bad
  end.

(** *** [parse_qs] *)

Definition hex_value (a : ascii) : option N :=
  let b := byte_of a in
  if in_range 48 57 a then Some (b - 48)
  else if in_range 65 70 a then Some (b - 55)
  else if in_range 97 102 a then Some (b - 87)
  else None.

(** [+] read as a space and [%XX] as a byte. *)
Fixpoint percent_decode (s : string) : string :=
  match s with
  | EmptyString => ""
  | String a r =>
      if (a =? "+")%char then String " " (percent_decode r)
      else if (a =? "%")%char then
        match r with
        | String h (String l r') =>
            match hex_value h, hex_value l with
            | Some x, Some y => String (ascii_of_N (16 * x + y)) (percent_decode r')
            | _, _ => String a (percent_decode r)
            end
        | _ => String a (percent_decode r)
        end
      else String a (percent_decode r)
  end.

Definition unquote_plus (s : str) : str := decode_replace (percent_decode s).

(** [parsed_result[name].append(value)], or a new entry. *)
Definition add_value (name value : str) (d : gmap string (list str))
    : gmap string (list str) :=
  match d !! name with
  | Some values => <[name := (values ++ [value])%list]> d
  | None => <[name := [value]]> d
  end.

(** The name and value of one field; a field without a value is
    dropped ([keep_blank_values] is false). *)
Definition field_of (name_value : str) : option (str * str) :=
  let (name, after) := partition "=" name_value in
  match after with
  | Some (String v r) => Some (unquote_plus name, unquote_plus (String v r))
  | _ => None
  end.

Definition qsl (qs : str) : list (str * str) :=
  omap field_of (split "&" qs).

Definition qs_dict (pairs : list (str * str)) : gmap string (list str) :=
  foldl (fun d nv => add_value (fst nv) (snd nv) d) ∅ pairs.

Definition parse (qs : str) : gmap string (list str) := qs_dict (qsl qs).

(** *** [json.dumps] *)

Definition dquote : string := chr 34.

Definition hex_digit (n : N) : string :=
  chr (if n <? 10 then 48 + n else 87 + n).

Definition hex4 (n : N) : string :=
  hex_digit (n / 4096 mod 16) ++ hex_digit (n / 256 mod 16)
  ++ hex_digit (n / 16 mod 16) ++ hex_digit (n mod 16).

(** A code point as [ensure_ascii] writes it. *)
Definition escape_point (cp : N) : string :=
  if cp =? 34 then "\" ++ dquote
  else if cp =? 92 then "\\"
  else if cp =? 10 then "\n"
  else if cp =? 13 then "\r"
  else if cp =? 9 then "\t"
  else if cp =? 8 then "\b"
  else if cp =? 12 then "\f"
  else if (32 <=? cp) && (cp <=? 126) then chr cp
  else if cp <? 65536 then "\u" ++ hex4 cp
  else
    "\u" ++ hex4 (55296 + (cp - 65536) / 1024)
    ++ "\u" ++ hex4 (56320 + (cp - 65536) mod 1024).

Definition quote (s : str) : string :=
  dquote
  ++ foldr (fun o acc => escape_point (default 65533 o) ++ acc)%string "" (utf8_scan s)
  ++ dquote.

Definition join (sep : string) (parts : list string) : string :=
  String.concat sep parts.

Fixpoint dumps (v : json) : string :=
  match v with
  | JNull => "null"
  | JBool true => "true"
  | JBool false => "false"
  | JNum l => l
  | JStr s => quote s
  | JArr xs => "[" ++ join ", " (List.map dumps xs) ++ "]"
  | JObj items =>
      "{" ++ join ", "
               (List.map (fun item => let '(k, x) := item in
                                      (quote k ++ ": " ++ dumps x)%string) items)
      ++ "}"
  end.

(** *** [json.loads] *)

Definition is_json_space (a : ascii) : bool :=
  (byte_of a =? 32) || (byte_of a =? 9) || (byte_of a =? 10) || (byte_of a =? 13).

Fixpoint skip_ws (s : string) : string :=
  match s with
  | String a r => if is_json_space a then skip_ws r else s
  | EmptyString => ""
  end.

(** The rest of [s] after the prefix [p]. *)
Fixpoint strip_prefix (p s : string) : option string :=
  match p, s with
  | EmptyString, _ => Some s
  | String a p', String b s' => if (a =? b)%char then strip_prefix p' s' else None
  | String _ _, EmptyString => None
  end.

(** A one-character escape. *)
Definition simple_escape (a : ascii) : option string :=
  let b := byte_of a in
  if b =? 34 then Some dquote
  else if b =? 92 then Some "\"%string
  else if b =? 47 then Some "/"%string
  else if b =? 98 then Some (chr 8)
  else if b =? 102 then Some (chr 12)
  else if b =? 110 then Some (chr 10)
  else if b =? 114 then Some (chr 13)
  else if b =? 116 then Some (chr 9)
  else None.

Definition hex4_value (a b c d : ascii) : option N :=
  match hex_value a, hex_value b, hex_value c, hex_value d with
  | Some w, Some x, Some y, Some z => Some (w * 4096 + x * 256 + y * 16 + z)
  | _, _, _, _ => None
  end.

(** The text of a string literal, read after its opening quote, and
    what follows the closing quote. *)
Fixpoint scan_string (s : string) : option (str * string) :=
  match s with
  | EmptyString => None
  | String a r =>
      if byte_of a =? 34 then Some (""%string, r)
      else if byte_of a =? 92 then
        match r with
        | EmptyString => None
        | String esc r1 =>
            if (esc =? "u")%char then
              match r1 with
              | String h1 (String h2 (String h3 (String h4 r5))) =>
                  match hex4_value h1 h2 h3 h4 with
                  | None => None
                  | Some uni =>
                      let single :=
                        match scan_string r5 with
                        | Some (t, rest) => Some ((utf8_of_point uni ++ t)%string, rest)
                        | None => None
                        end in
                      if (55296 <=? uni) && (uni <=? 56319) then
                        match r5 with
                        | String b1 (String b2 (String g1 (String g2 (String g3 (String g4 r11))))) =>
                            if (byte_of b1 =? 92) && (b2 =? "u")%char then
                              match hex4_value g1 g2 g3 g4 with
                              | None => None
                              | Some uni2 =>
                                  if (56320 <=? uni2) && (uni2 <=? 57343) then
                                    match scan_string r11 with
                                    | Some (t, rest) =>
                                        Some ((utf8_of_point
                                                 (65536 + (uni - 55296) * 1024 + (uni2 - 56320))
                                               ++ t)%string, rest)
                                    | None => None
                                    end
                                  else single
                              end
                            else single
                        | _ => single
                        end
                      else single
                  end
              | _ => None
              end
            else
              match simple_escape esc with
              | None => None
              | Some c =>
                  match scan_string r1 with
                  | Some (t, rest) => Some ((c ++ t)%string, rest)
                  | None => None
                  end
              end
        end
      else if byte_of a <? 32 then None
      else
        match scan_string r with
        | Some (t, rest) => Some (String a t, rest)
        | None => None
        end
  end.

(** The longest prefix of digits and what follows it. *)
Fixpoint span_digits (s : string) : string * string :=
  match s with
  | String a r =>
      if is_digit a then let (ds, rest) := span_digits r in (String a ds, rest)
      else (""%string, s)
  | EmptyString => (""%string, ""%string)
  end.

(** The optional fraction of a number: a dot and at least one digit. *)
Definition scan_fraction (s : string) : string * string :=
  match s with
  | String a r =>
      if (a =? ".")%char then
        match span_digits r with
        | (EmptyString, _) => (""%string, s)
        | (ds, rest) => (String a ds, rest)
        end
      else (""%string, s)
  | EmptyString => (""%string, s)
  end.

(** The optional exponent: [e] or [E], a sign or none, and at least one
    digit. *)
Definition scan_exponent (s : string) : string * string :=
  match s with
  | String a r =>
      if (a =? "e")%char || (a =? "E")%char then
        let (sign, r') :=
          match r with
          | String b r1 =>
              if (b =? "+")%char || (b =? "-")%char then (String b "", r1)
              else (""%string, r)
          | EmptyString => (""%string, r)
          end in
        match span_digits r' with
        | (EmptyString, _) => (""%string, s)
        | (ds, rest) => (String a (sign ++ ds), rest)
        end
      else (""%string, s)
  | EmptyString => (""%string, s)
  end.

(** A number lexeme: a sign or none, [0] or digits without a leading
    zero, then fraction and exponent. *)
Definition scan_number (s : string) : option (str * string) :=
  let (sign, r) :=
    match s with
    | String a r0 => if (a =? "-")%char then ("-"%string, r0) else (""%string, s)
    | EmptyString => (""%string, s)
    end in
  match r with
  | String d r1 =>
      if (d =? "0")%char then
        let (frac, r2) := scan_fraction r1 in
        let (ex, r3) := scan_exponent r2 in
        Some ((sign ++ "0" ++ frac ++ ex)%string, r3)
      else if is_digit d then
        let (ds, r2) := span_digits r in
        let (frac, r3) := scan_fraction r2 in
        let (ex, r4) := scan_exponent r3 in
        Some ((sign ++ ds ++ frac ++ ex)%string, r4)
      else None
  | EmptyString => None
  end.

(** A value that is neither a string nor a container. *)
Definition scan_atom (s : string) : option (json * string) :=
  match strip_prefix "null" s with
  | Some r => Some (JNull, r)
  | None =>
  match strip_prefix "true" s with
  | Some r => Some (JBool true, r)
  | None =>
  match strip_prefix "false" s with
  | Some r => Some (JBool false, r)
  | None =>
  match scan_number s with
  | Some (l, r) => Some (JNum l, r)
  | None =>
  match strip_prefix "NaN" s with
  | Some r => Some (JNum "NaN", r)
  | None =>
  match strip_prefix "Infinity" s with
  | Some r => Some (JNum "Infinity", r)
  | None =>
  match strip_prefix "-Infinity" s with
  | Some r => Some (JNum "-Infinity", r)
  | None => None
  end end end end end end end.

(** The value at the head of [s] and what follows it.  [fuel] bounds
    the calls; [parse_elems] reads an array from its first element,
    [parse_members] a dict from the quote of its first key.  A key that
    comes again replaces the earlier value. *)
Fixpoint parse_value (fuel : nat) (s : string) {struct fuel} : option (json * string) :=
  match fuel with
  | O => None
  | S fuel' =>
      match s with
      | EmptyString => None
      | String a r =>
          if byte_of a =? 34 then
            match scan_string r with
            | Some (t, rest) => Some (JStr t, rest)
            | None => None
            end
          else if (a =? "[")%char then
            match skip_ws r with
            | String b r' =>
                if (b =? "]")%char then Some (JArr [], r')
                else
                  match parse_elems fuel' (String b r') [] with
                  | Some (xs, rest) => Some (JArr xs, rest)
                  | None => None
                  end
            | EmptyString => None
            end
          else if (a =? "{")%char then
            match skip_ws r with
            | String b r' =>
                if (b =? "}")%char then Some (JObj [], r')
                else
                  match parse_members fuel' (String b r') [] with
                  | Some (m, rest) => Some (JObj m, rest)
                  | None => None
                  end
            | EmptyString => None
            end
          else scan_atom s
      end
  end
with parse_elems (fuel : nat) (s : string) (acc : list json) {struct fuel}
    : option (list json * string) :=
  match fuel with
  | O => None
  | S fuel' =>
      match parse_value fuel' s with
      | None => None
      | Some (v, r) =>
          match skip_ws r with
          | String b r' =>
              if (b =? ",")%char then parse_elems fuel' (skip_ws r') (acc ++ [v])%list
              else if (b =? "]")%char then Some ((acc ++ [v])%list, r')
              else None
          | EmptyString => None
          end
      end
  end
with parse_members (fuel : nat) (s : string) (acc : list (str * json)) {struct fuel}
    : option (list (str * json) * string) :=
  match fuel with
  | O => None
  | S fuel' =>
      match s with
      | EmptyString => None
      | String q r =>
          if negb (byte_of q =? 34) then None
          else
            match scan_string r with
            | None => None
            | Some (key, r1) =>
                match skip_ws r1 with
                | EmptyString => None
                | String c r2 =>
                    if negb (c =? ":")%char then None
                    else
                      match parse_value fuel' (skip_ws r2) with
                      | None => None
                      | Some (v, r3) =>
                          match skip_ws r3 with
                          | String b r4 =>
                              if (b =? ",")%char then
                                parse_members fuel' (skip_ws r4) (dict_set key v acc)
                              else if (b =? "}")%char then Some (dict_set key v acc, r4)
                              else None
                          | EmptyString => None
                          end
                      end
                end
            end
      end
  end.

Definition loads (s : str) : res json :=
  match strip_prefix (utf8_of_point 65279) s with
  | Some _ => Raise (Exn JSONDecodeError "Unexpected UTF-8 BOM (decode using utf-8-sig)")
  | None =>
      match parse_value (S (String.length s)) (skip_ws s) with
      | None => Raise (Exn JSONDecodeError "Expecting value")
      | Some (v, r) =>
          if (skip_ws r =? "")%string then Ok v
          else Raise (Exn JSONDecodeError "Extra data")
      end
  end.

(** *** The stock error page and [str] of a dict *)

Definition explain (code : Z) : str :=
  if (code =? 404)%Z then "Nothing matches the given URI" else "???"%string.

Definition page (code : Z) (message : str) : bytes :=
  ("<!DOCTYPE HTML><html lang=" ++ dquote ++ "en" ++ dquote
   ++ "><head><title>Error response</title></head><body><h1>Error response</h1><p>Error code: "
   ++ str_of_int code ++ "</p><p>Message: " ++ message
   ++ ".</p><p>Error code explanation: " ++ str_of_int code ++ " - " ++ explain code
   ++ ".</p></body></html>")%string.

(** [repr] of a value, as an f-string prints a dict: text between single
    quotes, without the escapes that a quote or a control character in
    it would need. *)
Fixpoint repr_value (v : json) : string :=
  match v with
  | JNull => "None"
  | JBool true => "True"
  | JBool false => "False"
  | JNum l => l
  | JStr s => "'" ++ s ++ "'"
  | JArr xs => "[" ++ join ", " (List.map repr_value xs) ++ "]"
  | JObj items =>
      "{" ++ join ", "
               (List.map (fun item => let '(k, x) := item in
                                      ("'" ++ k ++ "': " ++ repr_value x)%string) items)
      ++ "}"
  end.

Definition repr_bson (v : bson) : string :=
  match v with
  | Json x => repr_value x
  | ObjectId hex => "ObjectId('" ++ hex ++ "')"
  end.

Definition repr (d : list (str * bson)) : str :=
  "{" ++ join ", "
           (List.map (fun item => let '(k, x) := item in
                                  ("'" ++ k ++ "': " ++ repr_bson x)%string) d)
  ++ "}".

#[export] Instance lib : PyLib := {|
  urlparse_path := parsed_path;
  py_int := int_of;
  utf8_decode := decode;
  utf8_encode := fun s => s;
  parse_qs := parse;
  json_dumps := dumps;
  json_loads := loads;
  error_page := page;
  repr_dict := repr;
|}.

End Ref.

(** * The vocabulary of the statements *)

Section HttpVocabulary.
Import Http.
Context `{PyLib}.
Variable e : env.

(** The three answers of [do_POST] on the message route. *)
Definition answer_200 : list out_event :=
  [SendResponse 200; SendHeader "Content-type" "text/html"; EndHeaders;
   Write "Message sent successfully!"].

Definition answer_400 : list out_event :=
  [SendResponse 400; SendHeader "Content-type" "text/html"; EndHeaders;
   Write "Username and message are required"].

Definition answer_500 (err : exn) : list out_event :=
  [SendResponse 500; SendHeader "Content-type" "text/html"; EndHeaders;
   Write (utf8_encode ("Error: " ++ exn_text err))].

(** The socket calls of one forwarding, up to the call that fails. *)
Definition forward_calls (username message : str) : list sock_call :=
  match connect_outcome e with
  | Some _ => [SockCreate; SockConnect "localhost" SOCKET_PORT; SockClose]
  | None =>
      [SockCreate; SockConnect "localhost" SOCKET_PORT;
       SockSendall (utf8_encode (json_dumps (payload username message))); SockClose]
  end.

(** The error that stops the forwarding, if any. *)
Definition forward_error : option exn :=
  match connect_outcome e with
  | Some err => Some err
  | None => sendall_outcome e
  end.

(** The routes of the specification: a path and the file it serves. *)
Definition static_routes : list (str * str) :=
  [("/", "index.html"); ("/index.html", "index.html");
   ("/message.html", "message.html"); ("/style.css", "style.css");
   ("/logo.png", "logo.png")].

(** The body of a 404 answer: the content of [error.html] when the
    static directory has the file, the stock page when nothing stands
    under the name, and nothing when what stands there cannot be read. *)
Definition not_found_body : bytes :=
  match files e !! os_path_join FRONT_DIR "error.html" with
  | Some (Regular content) => content
  | Some (Unreadable _) => ""
  | None => error_page 404 "Not Found"
  end.

(** How the writing of a 404 answer ends: with the error of the reading
    when [error.html] is there and cannot be read. *)
Definition not_found_end : res unit :=
  match files e !! os_path_join FRONT_DIR "error.html" with
  | Some (Unreadable err) => Raise err
  | _ => Ok tt
  end.

(** The fields of a form body, in order, are pairs of a name and a
    value.  The value of the first pair with a name, and the empty text
    when no pair has the name. *)
Fixpoint first_value (name : str) (pairs : list (str * str)) : str :=
  match pairs with
  | [] => ""
  | (k, v) :: pairs' => if (k =? name)%string then v else first_value name pairs'
  end.

(** The values of the pairs with a name, in order. *)
Fixpoint values_of (name : str) (pairs : list (str * str)) : list str :=
  match pairs with
  | [] => []
  | (k, v) :: pairs' =>
      if (k =? name)%string then v :: values_of name pairs' else values_of name pairs'
  end.

(** What [parse_qs] is documented to give for a body with these fields:
    a dict that maps each name to the list of its values, in order. *)
Definition groups (form : gmap string (list str)) (pairs : list (str * str)) : Prop :=
  forall name,
    form !! name = match values_of name pairs with
                   | [] => None
                   | values => Some values
                   end.

End HttpVocabulary.

Section IngestVocabulary.
Import Ingest.
Context `{PyLib}.

(** A state with more documents, lines and calls. *)
Definition extend (st : state) (docs : list record) (lines : list str)
    (cs : list call) : state :=
  {| collection := (collection st ++ docs)%list;
     stdout := (stdout st ++ lines)%list;
     calls := (calls st ++ cs)%list |}.

(** What the [recv] loop gives on a script: the bytes accumulated, or the
    error of the [recv] that raises. *)
Fixpoint received (script : list recv_result) (data : bytes) : res bytes :=
  match script with
  | [] => Ok data
  | Chunk chunk :: rest =>
      if (chunk =? "")%string then Ok data else received rest (data ++ chunk)
  | RecvError err :: _ => Raise err
  end.

(** The number of [recv] calls of the loop on a script. *)
Fixpoint recv_count (script : list recv_result) : nat :=
  match script with
  | [] => 1
  | Chunk chunk :: rest =>
      if (chunk =? "")%string then 1 else S (recv_count rest)
  | RecvError _ :: _ => 1
  end.

(** The document that lines 187 to 196 build from the bytes received,
    or the exception they raise. *)
Definition build_document (c : connection) (data : bytes) : res document :=
  match utf8_decode data with
  | Raise err => Raise err
  | Ok text =>
      match json_loads text with
      | Raise err => Raise err
      | Ok json_data =>
          match get json_data "username" (JStr "") with
          | Raise err => Raise err
          | Ok username =>
              match get json_data "message" (JStr "") with
              | Raise err => Raise err
              | Ok message =>
                  Ok [("date", Json (JStr (strftime (now c))));
                      ("username", Json username);
                      ("message", Json message)]
              end
          end
      end
  end.

(** The dict after [insert_one]: with the identifier generated on the
    connection, as its last item, when it had none. *)
Definition identified (c : connection) (doc : document) : document :=
  match dict_get "_id" doc with
  | Some _ => doc
  | None => (doc ++ [("_id", ObjectId (new_id c))])%list
  end.

(** The record that the datastore keeps of a dict. *)
Definition record_of (c : connection) (doc : document) : record :=
  list_to_map (identified c doc).

(** The line that the handlers of the inner [try] print. *)
Definition failure_line (err : exn) : str :=
  if is_JSONDecodeError err then "Error parsing JSON: " ++ exn_text err
  else "Error saving to MongoDB: " ++ exn_text err.

(** The error that ends a start-up attempt, if any: that of the
    constructor, or else that of the check. *)
Definition attempt_outcome (e : env) (k : nat) : option exn :=
  match client_outcome e k with
  | Some err => Some err
  | None => server_info_outcome e k
  end.

(** The calls of a start-up attempt: the construction of the client,
    and the check when the constructor returns. *)
Definition attempt_calls (e : env) (k : nat) : list call :=
  MongoClient (mongo_uri e) 2000
  :: match client_outcome e k with
     | Some _ => []
     | None => [ServerInfo]
     end.

(** The calls of the start-up from attempt [i] on, when [fails] attempts
    fail before the last one made: each failed attempt is followed by
    the delay. *)
Fixpoint startup_calls (e : env) (i fails : nat) : list call :=
  match fails with
  | O => attempt_calls e i
  | S fails' =>
      (attempt_calls e i ++ Sleep 1 :: startup_calls e (S i) fails')%list
  end.

(** The number of connection attempts among the calls made. *)
Fixpoint attempts_made (cs : list call) : nat :=
  match cs with
  | [] => 0
  | MongoClient _ _ :: cs' => S (attempts_made cs')
  | _ :: cs' => attempts_made cs'
  end.

(** The number of liveness checks among the calls made. *)
Fixpoint checks_made (cs : list call) : nat :=
  match cs with
  | [] => 0
  | ServerInfo :: cs' => S (checks_made cs')
  | _ :: cs' => checks_made cs'
  end.

(** The number of failed attempts before the first that succeeds, among
    the [n] attempts from [i] on. *)
Fixpoint failures (e : env) (i n : nat) : nat :=
  match n with
  | O => 0
  | S n' =>
      match attempt_outcome e i with
      | None => 0
      | Some _ => S (failures e (S i) n')
      end
  end.

(** The lines printed while waiting, for the attempts from [i] on. *)
Fixpoint waiting_lines (i n : nat) : list str :=
  match n with
  | O => []
  | S n' =>
      ("Waiting for MongoDB... (attempt " ++ str_of_int (Z.of_nat i + 1) ++ "/"
       ++ str_of_int (Z.of_nat max_retries) ++ ")") :: waiting_lines (S i) n'
  end.

(** The line printed when the last attempt fails with [err]. *)
Definition giving_up_line (err : exn) : str :=
  "Error connecting to MongoDB after " ++ str_of_int (Z.of_nat max_retries)
  ++ " attempts: " ++ exn_text err.

(** What is printed when the last attempt fails. *)
Definition giving_up (e : env) : list str :=
  match attempt_outcome e (max_retries - 1) with
  | Some err => [giving_up_line err]
  | None => []
  end.

(** A clock reading with a four-digit year. *)
Definition clock_reading (dt : datetime) : Prop :=
  (1000 <= year dt <= 9999 /\ 1 <= month dt <= 12 /\ 1 <= day dt <= 31
   /\ 0 <= hour dt <= 23 /\ 0 <= minute dt <= 59 /\ 0 <= second dt <= 59
   /\ 0 <= microsecond dt <= 999999)%Z.

(** A pattern of characters: a decimal digit, or a given character. *)
Inductive pattern_item :=
| Digit
| Char (a : ascii).

Fixpoint matches (p : list pattern_item) (s : string) : bool :=
  match p, s with
  | [], EmptyString => true
  | Digit :: p', String a s' =>
      (48 <=? N_of_ascii a)%N && (N_of_ascii a <=? 57)%N && matches p' s'
  | Char c :: p', String a s' => (a =? c)%char && matches p' s'
  | _, _ => false
  end.

(** The format YYYY-MM-DD HH:MM:SS.ffffff. *)
Definition timestamp_pattern : list pattern_item :=
  (replicate 4 Digit ++ [Char "-"] ++ replicate 2 Digit ++ [Char "-"]
   ++ replicate 2 Digit ++ [Char " "] ++ replicate 2 Digit ++ [Char ":"]
   ++ replicate 2 Digit ++ [Char ":"] ++ replicate 2 Digit ++ [Char "."]
   ++ replicate 6 Digit)%list.

(** The number that a text of [w] decimal digits writes, with what
    follows the digits. *)
Fixpoint read_digits (w : nat) (acc : Z) (s : string) : option (Z * string) :=
  match w with
  | O => Some (acc, s)
  | S w' =>
      match s with
      | String a s' =>
          if (48 <=? N_of_ascii a)%N && (N_of_ascii a <=? 57)%N then
            read_digits w' (10 * acc + Z.of_N (N_of_ascii a - 48)) s'
          else None
      | EmptyString => None
      end
  end.

(** What follows a given character. *)
Definition read_char (c : ascii) (s : string) : option string :=
  match s with
  | String a s' => if (a =? c)%char then Some s' else None
  | EmptyString => None
  end.

(** The reading of the clock that a text in the format
    YYYY-MM-DD HH:MM:SS.ffffff writes. *)
Definition read_timestamp (s : str) : option datetime :=
  '(y, s) ← read_digits 4 0 s; s ← read_char "-" s;
  '(mo, s) ← read_digits 2 0 s; s ← read_char "-" s;
  '(d, s) ← read_digits 2 0 s; s ← read_char " " s;
  '(h, s) ← read_digits 2 0 s; s ← read_char ":" s;
  '(mi, s) ← read_digits 2 0 s; s ← read_char ":" s;
  '(sec, s) ← read_digits 2 0 s; s ← read_char "." s;
  '(us, s) ← read_digits 6 0 s;
  match s with
  | EmptyString =>
      Some {| year := y; month := mo; day := d; hour := h; minute := mi;
              second := sec; microsecond := us |}
  | _ => None
  end.

(** The bytes of a list of chunks, in order. *)
Definition join_chunks (chunks : list bytes) : bytes :=
  foldr String.append "" chunks.

End IngestVocabulary.

Section MoreVocabulary.
Context `{PyLib}.

(** The value of the first header written with a keyword. *)
Fixpoint header_of (keyword : str) (evs : list Http.out_event) : option str :=
  match evs with
  | [] => None
  | Http.SendHeader k v :: evs' =>
      if (k =? keyword)%string then Some v else header_of keyword evs'
  | _ :: evs' => header_of keyword evs'
  end.

(** The content type that [do_GET] passes for each route. *)
Definition route_types : list (str * str) :=
  [("/", "text/html"); ("/index.html", "text/html");
   ("/message.html", "text/html"); ("/style.css", "text/css");
   ("/logo.png", "image/png")].

(** The number of [close] calls on the outbound socket. *)
Fixpoint sock_closes (calls : list Http.sock_call) : nat :=
  match calls with
  | [] => 0
  | Http.SockClose :: calls' => S (sock_closes calls')
  | _ :: calls' => sock_closes calls'
  end.

(** The number of [sendall] calls on the outbound socket. *)
Fixpoint sock_sends (calls : list Http.sock_call) : nat :=
  match calls with
  | [] => 0
  | Http.SockSendall _ :: calls' => S (sock_sends calls')
  | _ :: calls' => sock_sends calls'
  end.

(** The number of [close] calls of the socket server. *)
Fixpoint closes (cs : list Ingest.call) : nat :=
  match cs with
  | [] => 0
  | Ingest.Close :: cs' => S (closes cs')
  | _ :: cs' => closes cs'
  end.

(** The number of [listen] calls of the socket server. *)
Fixpoint listens (cs : list Ingest.call) : nat :=
  match cs with
  | [] => 0
  | Ingest.Listen _ :: cs' => S (listens cs')
  | _ :: cs' => listens cs'
  end.

(** The documents that one arrival adds to the collection: the document
    built from the bytes received, when the datastore accepts it. *)
Definition stored_by (inc : Ingest.incoming) : list (gmap string bson) :=
  match inc with
  | Ingest.AcceptError _ => []
  | Ingest.Accepted c =>
      match received (Ingest.recvs c) "" with
      | Raise _ => []
      | Ok data =>
          match build_document c data with
          | Raise _ => []
          | Ok doc =>
              match Ingest.insert_outcome c with
              | Some _ => []
              | None => [record_of c doc]
              end
          end
      end
  end.

(** A record with the four fields [date], [username], [message] and
    [_id], whose date is a text in the timestamp format and whose [_id]
    is an identifier. *)
Definition well_formed_record (r : gmap string bson) : Prop :=
  dom r = ({[ "date"; "username"; "message"; "_id" ]} : gset string)
  /\ (exists ts, r !! "date" = Some (Json (JStr ts))
                 /\ matches timestamp_pattern ts = true)
  /\ (exists hex, r !! "_id" = Some (ObjectId hex)).

(** The first character of a line. *)
Definition first_char (line : str) : option ascii :=
  match line with
  | String a _ => Some a
  | EmptyString => None
  end.

(** The clock of an arrival, when a connection is accepted, is a clock
    reading. *)
Definition sound_clock (inc : Ingest.incoming) : Prop :=
  match inc with
  | Ingest.AcceptError _ => True
  | Ingest.Accepted c => clock_reading (Ingest.now c)
  end.

End MoreVocabulary.

(** * Sample inputs

    Concrete requests, connections and environments, on which the model
    runs with the reference library. *)

Module Sample.

Definition site : gmap string Http.entry :=
  {[ "front-init/index.html" := Http.Regular "<h1>Home</h1>";
     "front-init/error.html" := Http.Regular "<h1>Not here</h1>" ]}.

(** The ingest server answers. *)
Definition ingest_up : Http.env :=
  {| Http.files := site; Http.connect_outcome := None; Http.sendall_outcome := None |}.

(** Nothing listens on the ingest port. *)
Definition refused : exn := Exn OSError "[Errno 111] Connection refused".

Definition ingest_down : Http.env :=
  {| Http.files := site; Http.connect_outcome := Some refused;
     Http.sendall_outcome := None |}.

Definition post (body : bytes) : Http.request :=
  {| Http.req_path := "/message";
     Http.req_content_length := Some (str_of_int (Z.of_nat (String.length body)));
     Http.req_rfile := body |}.

Definition post_alice : Http.request := post "username=alice&message=hello".
Definition post_bob : Http.request := post "username=bob&message=hi+there&username=eve".
Definition post_blank : Http.request := post "username=&message=hello".

Definition get (target : str) : Http.request :=
  {| Http.req_path := target; Http.req_content_length := None; Http.req_rfile := "" |}.

(** The bytes that [post_alice] puts on the wire. *)
Definition wire_alice : bytes :=
  @utf8_encode Ref.lib (@json_dumps Ref.lib (Http.payload "alice" "hello")).

Definition morning : Ingest.datetime :=
  {| Ingest.year := 2024; Ingest.month := 3; Ingest.day := 9; Ingest.hour := 7;
     Ingest.minute := 5; Ingest.second := 0; Ingest.microsecond := 4211 |}.

Definition connection_of (chunks : list bytes) : Ingest.connection :=
  {| Ingest.address := "('127.0.0.1', 50412)";
     Ingest.recvs := Ingest.Chunk <$> chunks;
     Ingest.now := morning;
     Ingest.new_id := "65ec0d2c8f1b2a0001c0ffee";
     Ingest.insert_outcome := None |}.

(** The wire bytes of [post_alice], received in two pieces. *)
Definition chunks_alice : list bytes :=
  [String.substring 0 16 wire_alice;
   String.substring 16 (String.length wire_alice - 16) wire_alice].

Definition connection_alice : Ingest.connection := connection_of chunks_alice.
Definition connection_garbage : Ingest.connection := connection_of ["username=alice"].
Definition connection_array : Ingest.connection := connection_of ["[1, 2]"].

(** A datastore that never answers. *)
Definition datastore_down : Ingest.env :=
  {| Ingest.MONGO_HOST := "localhost";
     Ingest.MONGO_PORT := 27017;
     Ingest.client_outcome := fun _ => None;
     Ingest.server_info_outcome :=
       fun _ => Some (Exn PyMongoError "localhost:27017: [Errno 111] Connection refused");
     Ingest.bind_outcome := None |}.

(** A port that no address can have: the constructor of the client
    refuses it, at every attempt. *)
Definition bad_port : exn :=
  Exn ValueError "Port must be an integer between 0 and 65535: '70000'".

Definition port_out_of_range : Ingest.env :=
  {| Ingest.MONGO_HOST := "localhost";
     Ingest.MONGO_PORT := 70000;
     Ingest.client_outcome := fun _ => Some bad_port;
     Ingest.server_info_outcome := fun _ => None;
     Ingest.bind_outcome := None |}.

End Sample.

Module MoreSample.

(** A POST to a path that is not the message route, with a header that
    is not a number. *)
Definition post_elsewhere : Http.request :=
  {| Http.req_path := "/submit?x=1";
     Http.req_content_length := Some "twelve";
     Http.req_rfile := "username=alice&message=hello" |}.

Definition post_bad_length : Http.request :=
  {| Http.req_path := "/message";
     Http.req_content_length := Some "twelve";
     Http.req_rfile := "username=alice&message=hello" |}.

(** A Content-Length that no machine word holds. *)
Definition post_huge_length : Http.request :=
  {| Http.req_path := "/message";
     Http.req_content_length := Some "1000000000000000000000000000000";
     Http.req_rfile := "username=alice&message=hello" |}.

(** A static directory in which the name of the logo is that of a
    directory. *)
Definition is_a_directory : exn :=
  Exn OSError "[Errno 21] Is a directory: 'front-init/logo.png'".

Definition logo_is_directory : Http.env :=
  {| Http.files := <["front-init/logo.png" := Http.Unreadable is_a_directory]> Sample.site;
     Http.connect_outcome := None;
     Http.sendall_outcome := None |}.

Definition post_no_length : Http.request :=
  {| Http.req_path := "/message";
     Http.req_content_length := None;
     Http.req_rfile := "username=alice&message=hello" |}.

(** The request of [Sample.post_alice] with more bytes in the stream
    than the header declares. *)
Definition post_alice_long : Http.request :=
  {| Http.req_path := "/message";
     Http.req_content_length := Some "28";
     Http.req_rfile := "username=alice&message=hello&message=more" |}.

Definition reset : exn := Exn OSError "[Errno 104] Connection reset by peer".

(** A peer that is cut off while it sends. *)
Definition connection_reset : Ingest.connection :=
  {| Ingest.address := "('127.0.0.1', 50413)";
     Ingest.recvs := [Ingest.Chunk "{"; Ingest.RecvError reset];
     Ingest.now := Sample.morning;
     Ingest.new_id := "65ec0d2c8f1b2a0001c0ffef";
     Ingest.insert_outcome := None |}.

Definition not_primary : exn := Exn PyMongoError "not primary".

(** The connection of [Sample.connection_alice], with a datastore that
    refuses the insert. *)
Definition connection_refused : Ingest.connection :=
  {| Ingest.address := "('127.0.0.1', 50414)";
     Ingest.recvs := Ingest.Chunk <$> Sample.chunks_alice;
     Ingest.now := Sample.morning;
     Ingest.new_id := "65ec0d2c8f1b2a0001c0fff0";
     Ingest.insert_outcome := Some not_primary |}.

(** Bytes that are not UTF-8. *)
Definition connection_latin : Ingest.connection :=
  Sample.connection_of [String (ascii_of_N 255) "abc"].

(** A datastore that answers at the fourth attempt. *)
Definition datastore_late : Ingest.env :=
  {| Ingest.MONGO_HOST := "mongo";
     Ingest.MONGO_PORT := 27017;
     Ingest.client_outcome := fun _ => None;
     Ingest.server_info_outcome :=
       fun k => if Nat.ltb k 3 then Some (Exn PyMongoError "mongo:27017: timed out")
                else None;
     Ingest.bind_outcome := None |}.

Definition in_use : exn := Exn OSError "[Errno 98] Address already in use".

Definition datastore_late_port_taken : Ingest.env :=
  {| Ingest.MONGO_HOST := "mongo";
     Ingest.MONGO_PORT := 27017;
     Ingest.client_outcome := fun _ => None;
     Ingest.server_info_outcome := Ingest.server_info_outcome datastore_late;
     Ingest.bind_outcome := Some in_use |}.

Definition evening : Ingest.datetime :=
  {| Ingest.year := 2024; Ingest.month := 3; Ingest.day := 9; Ingest.hour := 19;
     Ingest.minute := 5; Ingest.second := 0; Ingest.microsecond := 4211 |}.

End MoreSample.

(** * Properties *)

Lemma append_empty_r (s : string) : s ++ "" = s.
Proof.
  induction s as [| a s IH]; [reflexivity | ].
  change (String a (s ++ "") = String a s). now rewrite IH.
Qed.

Lemma append_assoc (a b c : string) : (a ++ b) ++ c = a ++ (b ++ c).
Proof.
  induction a as [| x a IH]; [reflexivity | ].
  change (String x ((a ++ b) ++ c) = String x (a ++ (b ++ c))). now rewrite IH.
Qed.

Ltac run_monad :=
  unfold mbind, M_bind, mret, M_ret, lift, raise, effect, try_except, try_finally.

(** ** The HTTP handler *)

Ltac run_handler :=
  unfold Http.send_response, Http.send_header, Http.end_headers, Http.wfile_write,
    Http.out, Http.sock;
  run_monad; cbn.

Section HttpProperties.
Import Http.
Context `{PyLib}.
Variable e : env.

Lemma truthy_true (s : str) : s <> "" -> truthy s = true.
Proof.
  intros Hs. unfold truthy. apply negb_true_iff, String.eqb_neq. exact Hs.
Qed.

(** Once the form is decoded, [do_POST] on the message route is its
    [if] statement. *)
Lemma do_POST_decoded (req : request) form username message :
  urlparse_path (req_path req) = Ok "/message" ->
  read_form req = Ok form ->
  form_field form "username" = Ok username ->
  form_field form "message" = Ok message ->
  do_POST e req initial
  = (if truthy username && truthy message then
       try_except
         (send_to_socket_server e username message;;
          send_response 200;;
          send_header "Content-type" "text/html";;
          end_headers;;
          wfile_write "Message sent successfully!")
         (fun err =>
            send_response 500;;
            send_header "Content-type" "text/html";;
            end_headers;;
            wfile_write (utf8_encode ("Error: " ++ exn_text err)))
     else
       send_response 400;;
       send_header "Content-type" "text/html";;
       end_headers;;
       wfile_write "Username and message are required") initial.
Proof.
  intros Hp Hf Hu Hm. unfold do_POST. rewrite Hp. cbn [String.eqb Ascii.eqb Bool.eqb].
  unfold mbind at 1 2 3. unfold M_bind at 1 2 3. unfold lift.
  rewrite Hf, Hu, Hm. reflexivity.
Qed.

(** The whole run of [do_POST] on a decoded form. *)
Lemma do_POST_run (req : request) form username message :
  urlparse_path (req_path req) = Ok "/message" ->
  read_form req = Ok form ->
  form_field form "username" = Ok username ->
  form_field form "message" = Ok message ->
  do_POST e req initial
  = (Ok tt,
     if truthy username && truthy message then
       {| sock_calls := forward_calls e username message;
          output := match forward_error e with
                    | None => answer_200
                    | Some err => answer_500 err
                    end |}
     else {| sock_calls := []; output := answer_400 |}).
Proof.
  intros Hp Hf Hu Hm. rewrite (do_POST_decoded req form username message Hp Hf Hu Hm).
  destruct (truthy username && truthy message); [ | reflexivity].
  unfold send_to_socket_server, sock_connect, sock_sendall, forward_calls, forward_error.
  destruct (connect_outcome e) as [err | ]; [reflexivity | ].
  destruct (sendall_outcome e) as [err | ]; reflexivity.
Qed.

(** C2.  A POST to /message whose form gives an empty user name or an
    empty message (a field that is absent reads as empty) is answered
    with status 400 and the fixed text, and the handler makes no call on
    a socket: nothing is sent to the ingest server. *)
Theorem post_blank_field_rejected (req : request) form username message :
  urlparse_path (req_path req) = Ok "/message" ->
  read_form req = Ok form ->
  form_field form "username" = Ok username ->
  form_field form "message" = Ok message ->
  username = "" \/ message = "" ->
  exists st',
    do_POST e req initial = (Ok tt, st')
    /\ status_of (output st') = Some 400%Z
    /\ body_of (output st') = "Username and message are required"
    /\ sock_calls st' = []
    /\ connects (sock_calls st') = [].
Proof.
  intros Hp Hf Hu Hm Hblank.
  rewrite (do_POST_run req form username message Hp Hf Hu Hm).
  assert (truthy username && truthy message = false) as ->.
  { destruct Hblank as [-> | ->]; [reflexivity | apply andb_false_r]. }
  eexists. split; [reflexivity | ]. cbn. auto.
Qed.

(** C3.  A POST to /message with both fields filled in, when [connect]
    or [sendall] raises, is answered with status 500, and the body is
    the text "Error: " followed by the text of the error. *)
Theorem post_forwarding_failure_reported (req : request) form username message err :
  urlparse_path (req_path req) = Ok "/message" ->
  read_form req = Ok form ->
  form_field form "username" = Ok username ->
  form_field form "message" = Ok message ->
  username <> "" -> message <> "" ->
  connect_outcome e = Some err
  \/ (connect_outcome e = None /\ sendall_outcome e = Some err) ->
  exists st',
    do_POST e req initial = (Ok tt, st')
    /\ status_of (output st') = Some 500%Z
    /\ body_of (output st') = utf8_encode ("Error: " ++ exn_text err).
Proof.
  intros Hp Hf Hu Hm Hu' Hm' Hnet.
  rewrite (do_POST_run req form username message Hp Hf Hu Hm).
  rewrite (truthy_true _ Hu'), (truthy_true _ Hm'). cbn [andb].
  assert (forward_error e = Some err) as ->.
  { unfold forward_error. destruct Hnet as [-> | [-> ->]]; reflexivity. }
  eexists. split; [reflexivity | ]. cbn. rewrite append_empty_r. auto.
Qed.

Lemma send_error_404_run (command : str) (st : state) :
  command <> "HEAD" ->
  exists st' tail,
    send_error e command 404 "Not Found" st = (not_found_end e, st')
    /\ sock_calls st' = sock_calls st
    /\ output st' = (output st ++ SendResponse 404 :: tail)%list
    /\ status_of tail = None
    /\ body_of tail = not_found_body e.
Proof.
  intros Hcommand. apply String.eqb_neq in Hcommand.
  unfold send_error, not_found_body, not_found_end, os_path_exists. cbn [Z.eqb Pos.eqb].
  destruct (files e !! os_path_join FRONT_DIR "error.html") as [[content | err] | ] eqn:Hfile.
  - unfold read_file. rewrite Hfile. run_handler.
    do 2 eexists. split; [reflexivity | ]. cbn. split; [reflexivity | ].
    split; [now rewrite <- !app_assoc | ]. cbn. split; [reflexivity | apply append_empty_r].
  - unfold read_file. rewrite Hfile. run_handler.
    do 2 eexists. split; [reflexivity | ]. cbn. split; [reflexivity | ].
    split; [now rewrite <- !app_assoc | ]. cbn. split; reflexivity.
  - unfold base_send_error. cbn [carries_body Z.leb Z.eqb Z.compare Pos.compare
      Pos.compare_cont Pos.eqb andb orb negb]. rewrite Hcommand. cbn [negb andb].
    destruct (error_page 404 "Not Found" =? "")%string eqn:Hpage; run_handler.
    + apply String.eqb_eq in Hpage. rewrite Hpage.
      do 2 eexists. split; [reflexivity | ]. cbn. split; [reflexivity | ].
      split; [now rewrite <- !app_assoc | ]. cbn. split; reflexivity.
    + do 2 eexists. split; [reflexivity | ]. cbn. split; [reflexivity | ].
      split; [now rewrite <- !app_assoc | ]. cbn. split; [reflexivity | apply append_empty_r].
Qed.

Lemma send_error_404_answer (command : str) :
  command <> "HEAD" ->
  exists st',
    send_error e command 404 "Not Found" initial = (not_found_end e, st')
    /\ status_of (output st') = Some 404%Z
    /\ body_of (output st') = not_found_body e
    /\ sock_calls st' = [].
Proof.
  intros Hcommand.
  destruct (send_error_404_run command initial Hcommand)
    as (st' & tail & Hrun & Hsock & Hout & _ & Hbody).
  exists st'. split; [exact Hrun | ]. rewrite Hout. cbn. auto.
Qed.

Lemma serve_file_found (command filename content_type : str) (content : bytes) :
  files e !! os_path_join FRONT_DIR filename = Some (Regular content) ->
  serve_file e command filename content_type initial
  = (Ok tt, {| sock_calls := [];
               output := [SendResponse 200; SendHeader "Content-type" content_type;
                          EndHeaders; Write content] |}).
Proof.
  intros Hfile. unfold serve_file, os_path_exists, read_file. rewrite Hfile. reflexivity.
Qed.

(** [do_GET] once the target is parsed. *)
Lemma do_GET_parsed (req : request) (path : str) :
  urlparse_path (req_path req) = Ok path ->
  do_GET e req
  = if (path =? "/")%string || (path =? "/index.html")%string then
      serve_file e "GET" "index.html" "text/html"
    else if (path =? "/message.html")%string then
      serve_file e "GET" "message.html" "text/html"
    else if (path =? "/style.css")%string then
      serve_file e "GET" "style.css" "text/css"
    else if (path =? "/logo.png")%string then
      serve_file e "GET" "logo.png" "image/png"
    else send_error e "GET" 404 "Not Found".
Proof.
  intros Hp. unfold do_GET. unfold mbind at 1. unfold M_bind, lift. rewrite Hp.
  reflexivity.
Qed.

(** The route taken by [do_GET]. *)
Lemma do_GET_route (req : request) (path file : str) :
  urlparse_path (req_path req) = Ok path ->
  In (path, file) static_routes ->
  exists content_type, do_GET e req = serve_file e "GET" file content_type.
Proof.
  intros Hp Hin. rewrite (do_GET_parsed req path Hp). cbn in Hin.
  destruct Hin as [Hr | [Hr | [Hr | [Hr | [Hr | []]]]]];
    injection Hr as <- <-; eexists; reflexivity.
Qed.

Lemma do_GET_other (req : request) (path : str) :
  urlparse_path (req_path req) = Ok path ->
  ~ In path (List.map fst static_routes) ->
  do_GET e req = send_error e "GET" 404 "Not Found".
Proof.
  intros Hp Hnot. rewrite (do_GET_parsed req path Hp). cbn in Hnot.
  assert (forall r, In r (List.map fst static_routes) -> (path =? r)%string = false) as Hne.
  { intros r Hr. apply String.eqb_neq. intros ->. apply Hnot. exact Hr. }
  rewrite !Hne by (cbn; tauto). reflexivity.
Qed.


Lemma first_value_hd (name : str) (pairs : list (str * str)) :
  first_value name pairs = hd "" (values_of name pairs).
Proof.
  induction pairs as [| [k v] pairs IH]; [reflexivity | ].
  cbn. destruct (k =? name)%string; [reflexivity | exact IH].
Qed.

(** [form_field] on the dict of a body: the first value of the name. *)
Lemma form_field_groups (form : gmap string (list str)) (pairs : list (str * str))
    (name : str) :
  groups form pairs -> form_field form name = Ok (first_value name pairs).
Proof.
  intros Hg. unfold form_field. rewrite (Hg name), first_value_hd.
  destruct (values_of name pairs); reflexivity.
Qed.



End HttpProperties.

(** C9.  The answer to a POST on the message route does not depend on
    the values of the fields: two requests whose fields pass or fail the
    check alike (in particular two requests with all fields filled in),
    and whose forwarding ends alike, get the same output; and the 200
    and 400 bodies are the two fixed texts. *)
Theorem post_answer_ignores_field_values `{PyLib} (e1 e2 : Http.env)
    (req1 req2 : Http.request) form1 form2 u1 m1 u2 m2 :
  urlparse_path (Http.req_path req1) = Ok "/message" ->
  urlparse_path (Http.req_path req2) = Ok "/message" ->
  Http.read_form req1 = Ok form1 ->
  Http.read_form req2 = Ok form2 ->
  Http.form_field form1 "username" = Ok u1 ->
  Http.form_field form1 "message" = Ok m1 ->
  Http.form_field form2 "username" = Ok u2 ->
  Http.form_field form2 "message" = Ok m2 ->
  Http.truthy u1 && Http.truthy m1 = Http.truthy u2 && Http.truthy m2 ->
  forward_error e1 = forward_error e2 ->
  let out1 := Http.output (snd (Http.do_POST e1 req1 Http.initial)) in
  let out2 := Http.output (snd (Http.do_POST e2 req2 Http.initial)) in
  out1 = out2
  /\ (Http.status_of out1 = Some 200%Z -> Http.body_of out1 = "Message sent successfully!")
  /\ (Http.status_of out1 = Some 400%Z
      -> Http.body_of out1 = "Username and message are required").
Proof.
  intros Hp1 Hp2 Hf1 Hf2 Hu1 Hm1 Hu2 Hm2 Hsame Hfwd out1 out2. subst out1 out2.
  rewrite (do_POST_run e1 req1 form1 u1 m1 Hp1 Hf1 Hu1 Hm1).
  rewrite (do_POST_run e2 req2 form2 u2 m2 Hp2 Hf2 Hu2 Hm2).
  rewrite <- Hsame, <- Hfwd.
  destruct (Http.truthy u1 && Http.truthy m1); cbn [snd Http.output].
  - destruct (forward_error e1); cbn; (split; [reflexivity | split; [ | ]]);
      intros; (reflexivity || discriminate).
  - cbn. split; [reflexivity | split; intros; (reflexivity || discriminate)].
Qed.

(** ** The socket server *)

Lemma extend_nothing (st : Ingest.state) : extend st [] [] [] = st.
Proof.
  destruct st. unfold extend. cbn. now rewrite !app_nil_r.
Qed.

Lemma extend_extend (st : Ingest.state) d1 l1 c1 d2 l2 c2 :
  extend (extend st d1 l1 c1) d2 l2 c2
  = extend st (d1 ++ d2)%list (l1 ++ l2)%list (c1 ++ c2)%list.
Proof.
  unfold extend. cbn. now rewrite !app_assoc.
Qed.

Lemma accepts_app (a b : list Ingest.call) :
  Ingest.accepts (a ++ b) = Ingest.accepts a + Ingest.accepts b.
Proof.
  induction a as [| [] a IH]; cbn; congruence.
Qed.

Lemma binds_app (a b : list Ingest.call) :
  Ingest.binds (a ++ b) = Ingest.binds a + Ingest.binds b.
Proof.
  induction a as [| [] a IH]; cbn; congruence.
Qed.

Lemma attempts_made_app (a b : list Ingest.call) :
  attempts_made (a ++ b) = attempts_made a + attempts_made b.
Proof.
  induction a as [| [] a IH]; cbn; congruence.
Qed.

Lemma inserts_app (a b : list Ingest.call) :
  Ingest.inserts (a ++ b) = (Ingest.inserts a ++ Ingest.inserts b)%list.
Proof.
  induction a as [| [] a IH]; cbn; congruence.
Qed.

Lemma recvs_count_nothing (k : nat) :
  let cs := replicate k (Ingest.Recv 1024) in
  Ingest.accepts cs = 0 /\ Ingest.binds cs = 0 /\ attempts_made cs = 0
  /\ Ingest.inserts cs = [].
Proof.
  induction k as [| k IH]; cbn; [auto | exact IH].
Qed.

Ltac tidy :=
  rewrite ?extend_extend; cbn [app]; rewrite ?app_nil_r, <- ?app_assoc; cbn [app].

Section IngestProperties.
Import Ingest.
Context `{PyLib}.
Variable e : env.

Lemma print_run (line : str) (st : state) : print line st = (Ok tt, extend st [] [line] []).
Proof.
  unfold print, effect, extend. now rewrite !app_nil_r.
Qed.

Lemma do_call_run (c : call) (st : state) : do_call c st = (Ok tt, extend st [] [] [c]).
Proof.
  unfold do_call, effect, extend. now rewrite !app_nil_r.
Qed.

Lemma store_run (doc : list (str * bson)) (st : state) :
  store doc st = (Ok tt, extend st [list_to_map doc] [] []).
Proof.
  unfold store, effect, extend. now rewrite !app_nil_r.
Qed.

Lemma recv_all_run (script : list recv_result) (data : bytes) (st : state) :
  recv_all script data st
  = (received script data, extend st [] [] (replicate (recv_count script) (Recv 1024))).
Proof.
  revert data st. induction script as [| [chunk | err] rest IH]; intros data st; cbn.
  - unfold mbind, M_bind. rewrite do_call_run. reflexivity.
  - unfold mbind, M_bind. rewrite do_call_run.
    destruct (chunk =? "")%string; [reflexivity | ].
    rewrite IH, extend_extend. reflexivity.
  - unfold mbind, M_bind. rewrite do_call_run. reflexivity.
Qed.

(** Setting a key that a dict does not have adds the item at the end. *)
Lemma dict_set_absent {V} (key : str) (v : V) (items : list (str * V)) :
  dict_get key items = None -> dict_set key v items = (items ++ [(key, v)])%list.
Proof.
  induction items as [| [k x] items IH]; [reflexivity | ]. cbn.
  destruct (k =? key)%string; [discriminate | ]. intros Hrest. now rewrite IH.
Qed.

(** The run of [insert_one]: the dict gets its identifier whether the
    datastore accepts the insert or not, and is stored when it does. *)
Lemma insert_one_run (c : connection) (doc : list (str * bson)) (st : state) :
  insert_one c doc st
  = match insert_outcome c with
    | Some err => (Raise err, extend st [] [] [InsertOne doc])
    | None => (Ok (identified c doc), extend st [record_of c doc] [] [InsertOne doc])
    end.
Proof.
  unfold insert_one, record_of, identified, mbind, M_bind, mret, M_ret, raise.
  rewrite do_call_run.
  destruct (insert_outcome c) as [err | ]; [reflexivity | ].
  destruct (dict_get "_id" doc) eqn:Hid; rewrite store_run;
    rewrite ?(dict_set_absent _ _ _ Hid); now tidy.
Qed.

Lemma serve_one_run (inc : incoming) (st : state) :
  serve_one inc st
  = (Ok tt,
     match inc with
     | AcceptError err =>
         extend st [] ["Error in socket server: " ++ exn_text err] [Accept]
     | Accepted c =>
         let recvs := replicate (recv_count (recvs c)) (Recv 1024) in
         let hello := "Connection from " ++ address c in
         match received (Ingest.recvs c) "" with
         | Raise err =>
             extend st [] [hello; "Error in socket server: " ++ exn_text err]
               (Accept :: recvs)
         | Ok data =>
             match build_document c data with
             | Raise err =>
                 extend st [] [hello; failure_line err] (Accept :: recvs ++ [Close])
             | Ok doc =>
                 match insert_outcome c with
                 | Some err =>
                     extend st [] [hello; failure_line err]
                       (Accept :: recvs ++ [InsertOne doc; Close])
                 | None =>
                     extend st [record_of c doc]
                       [hello; "Saved message: " ++ repr_dict (identified c doc)]
                       (Accept :: recvs ++ [InsertOne doc; Close])
                 end
             end
         end
     end).
Proof.
  unfold serve_one, accept, build_document, failure_line.
  unfold mbind, M_bind, mret, M_ret, lift, raise, try_except.
  rewrite do_call_run.
  destruct inc as [err | c].
  - rewrite print_run. now tidy.
  - rewrite print_run, recv_all_run.
    destruct (received (recvs c) "") as [data | err].
    2: { rewrite print_run. now tidy. }
    destruct (utf8_decode data) as [text | err].
    2: { destruct (is_JSONDecodeError err); rewrite print_run, do_call_run; now tidy. }
    destruct (json_loads text) as [json_data | err].
    2: { destruct (is_JSONDecodeError err); rewrite print_run, do_call_run; now tidy. }
    destruct (get json_data "username" (JStr "")) as [username | err].
    2: { destruct (is_JSONDecodeError err); rewrite print_run, do_call_run; now tidy. }
    destruct (get json_data "message" (JStr "")) as [message | err].
    2: { destruct (is_JSONDecodeError err); rewrite print_run, do_call_run; now tidy. }
    rewrite insert_one_run.
    destruct (insert_outcome c) as [err | ].
    + destruct (is_JSONDecodeError err); rewrite print_run, do_call_run; now tidy.
    + rewrite print_run, do_call_run. now tidy.
Qed.

(** The calls of one pass of the loop: one [accept], no start-up call,
    and the inserts are those of the documents stored, when any. *)
Lemma serve_one_delta (inc : incoming) (st : state) :
  exists docs lines cs,
    serve_one inc st = (Ok tt, extend st docs lines cs)
    /\ accepts cs = 1 /\ binds cs = 0 /\ attempts_made cs = 0.
Proof.
  rewrite serve_one_run.
  destruct (recvs_count_nothing (match inc with
                                 | Accepted c => recv_count (recvs c)
                                 | _ => 0 end)) as (Ha & Hb & Hm & _).
  destruct inc as [err | c]; cbn zeta.
  { do 3 eexists. split; [reflexivity | ]. cbn. auto. }
  destruct (received (recvs c) "") as [data | err].
  2: { do 3 eexists. split; [reflexivity | ]. cbn. auto. }
  destruct (build_document c data) as [doc | err].
  2: { do 3 eexists. split; [reflexivity | ]. cbn.
       rewrite accepts_app, binds_app, attempts_made_app, Ha, Hb, Hm. cbn. auto. }
  destruct (insert_outcome c) as [err | ].
  all: do 3 eexists; (split; [reflexivity | ]); cbn;
    rewrite accepts_app, binds_app, attempts_made_app, Ha, Hb, Hm; cbn; auto.
Qed.

(** The accept loop does not raise, whatever arrives, and makes one
    [accept] for each arrival. *)
Lemma accept_loop_delta (arrivals : list incoming) (st : state) :
  exists docs lines cs,
    accept_loop arrivals st = (Ok tt, extend st docs lines cs)
    /\ accepts cs = List.length arrivals /\ binds cs = 0 /\ attempts_made cs = 0.
Proof.
  revert st. induction arrivals as [| inc rest IH]; intros st.
  { exists [], [], []. rewrite extend_nothing. cbn. auto. }
  destruct (serve_one_delta inc st) as (d1 & l1 & c1 & Hrun & Ha & Hb & Hm).
  destruct (IH (extend st d1 l1 c1)) as (d2 & l2 & c2 & Hrun2 & Ha2 & Hb2 & Hm2).
  exists (d1 ++ d2)%list, (l1 ++ l2)%list, (c1 ++ c2)%list.
  cbn [accept_loop]. unfold mbind, M_bind. rewrite Hrun, Hrun2, extend_extend.
  rewrite accepts_app, binds_app, attempts_made_app, Ha, Ha2, Hb, Hb2, Hm, Hm2.
  cbn. auto.
Qed.

(** One iteration of the [for] loop. *)
Lemma connect_loop_step (attempt : nat) (rest : list nat)
    (client : option mongo_client) (st : state) :
  connect_loop e (attempt :: rest) client st
  = match attempt_outcome e attempt with
    | None =>
        (Ok (LoopLeft (Some (Client (mongo_uri e)))),
         extend st [] [] (attempt_calls e attempt))
    | Some err =>
        if Nat.ltb attempt (max_retries - 1) then
          connect_loop e rest
            (match client_outcome e attempt with
             | Some _ => client
             | None => Some (Client (mongo_uri e))
             end)
            (extend st [] (waiting_lines attempt 1)
               (attempt_calls e attempt ++ [Sleep 1]))
        else
          (Ok FunctionReturned,
           extend st [] [giving_up_line err] (attempt_calls e attempt))
    end.
Proof.
  cbn [connect_loop].
  unfold new_client, server_info, except_clause, attempt_outcome, attempt_calls.
  unfold caught, mbind, M_bind, mret, M_ret, raise, try_except.
  rewrite !do_call_run.
  destruct (client_outcome e attempt) as [err | ].
  - destruct (Nat.ltb attempt (max_retries - 1)).
    + rewrite print_run, do_call_run. now tidy.
    + rewrite print_run. now tidy.
  - rewrite do_call_run.
    destruct (server_info_outcome e attempt) as [err | ]; [ | now tidy].
    destruct (Nat.ltb attempt (max_retries - 1)).
    + rewrite print_run, do_call_run. now tidy.
    + rewrite print_run. now tidy.
Qed.

Lemma failures_S (i n : nat) :
  failures e i (S n)
  = match attempt_outcome e i with
    | None => 0
    | Some _ => S (failures e (S i) n)
    end.
Proof. reflexivity. Qed.

Lemma connect_loop_run (n i : nat) (client : option mongo_client) (st : state) :
  i + S n = max_retries ->
  connect_loop e (seq i (S n)) client st
  = if Nat.ltb (failures e i (S n)) (S n) then
      (Ok (LoopLeft (Some (Client (mongo_uri e)))),
       extend st [] (waiting_lines i (failures e i (S n)))
         (startup_calls e i (failures e i (S n))))
    else
      (Ok FunctionReturned,
       extend st [] (waiting_lines i n ++ giving_up e)%list (startup_calls e i n)).
Proof.
  revert i client st. induction n as [| n IH]; intros i client st Hi.
  - assert (i = max_retries - 1) as -> by (unfold max_retries in *; lia).
    unfold giving_up. cbn [seq]. rewrite connect_loop_step. cbn [failures].
    destruct (attempt_outcome e (max_retries - 1)) as [err | ]; reflexivity.
  - cbn [seq]. rewrite connect_loop_step, (failures_S i (S n)).
    destruct (attempt_outcome e i) as [err | ]; [ | reflexivity].
    assert (Nat.ltb i (max_retries - 1) = true) as ->
      by (apply Nat.ltb_lt; unfold max_retries in *; lia).
    change (S i :: seq (S (S i)) n) with (seq (S i) (S n)).
    rewrite IH by lia.
    change (Nat.ltb (S (failures e (S i) (S n))) (S (S n)))
      with (Nat.ltb (failures e (S i) (S n)) (S n)).
    destruct (Nat.ltb (failures e (S i) (S n)) (S n));
      rewrite extend_extend; cbn [waiting_lines startup_calls app];
      now rewrite <- ?app_assoc.
Qed.

Lemma failures_bound (i n : nat) : failures e i n <= n.
Proof.
  revert i. induction n as [| n IH]; intros i; cbn; [lia | ].
  destruct (attempt_outcome e i); [ | lia]. specialize (IH (S i)). lia.
Qed.

Lemma failures_all (i n : nat) :
  (forall k, k < i + n -> attempt_outcome e k <> None) ->
  failures e i n = n.
Proof.
  revert i. induction n as [| n IH]; intros i Hall; cbn; [reflexivity | ].
  destruct (attempt_outcome e i) eqn:Hout.
  - rewrite IH; [reflexivity | ]. intros k Hk. apply Hall. lia.
  - exfalso. apply (Hall i); [lia | exact Hout].
Qed.

Lemma attempts_made_attempt (k : nat) : attempts_made (attempt_calls e k) = 1.
Proof.
  unfold attempt_calls. now destruct (client_outcome e k).
Qed.

Lemma binds_attempt (k : nat) : binds (attempt_calls e k) = 0.
Proof.
  unfold attempt_calls. now destruct (client_outcome e k).
Qed.

Lemma attempts_made_startup (i fails : nat) :
  attempts_made (startup_calls e i fails) = S fails.
Proof.
  revert i. induction fails as [| fails IH]; intros i; cbn [startup_calls].
  - apply attempts_made_attempt.
  - rewrite attempts_made_app, attempts_made_attempt. cbn. now rewrite IH.
Qed.

Lemma binds_startup (i fails : nat) : binds (startup_calls e i fails) = 0.
Proof.
  revert i. induction fails as [| fails IH]; intros i; cbn [startup_calls].
  - apply binds_attempt.
  - rewrite binds_app, binds_attempt. cbn. apply IH.
Qed.

(** The whole run of [socket_server]. *)
Lemma socket_server_run (arrivals : list incoming) (st : state) :
  let f := failures e 0 max_retries in
  if Nat.ltb f max_retries then
    exists docs lines rest,
      snd (socket_server e arrivals st)
      = extend st docs lines (startup_calls e 0 f ++ rest)%list
      /\ attempts_made rest = 0
  else
    socket_server e arrivals st
    = (Ok Returned,
       extend st [] (waiting_lines 0 (max_retries - 1) ++ giving_up e)%list
         (startup_calls e 0 (max_retries - 1))).
Proof.
  intros f. subst f.
  assert (connect_loop e (seq 0 max_retries) None st
          = if Nat.ltb (failures e 0 max_retries) max_retries then
              (Ok (LoopLeft (Some (Client (mongo_uri e)))),
               extend st [] (waiting_lines 0 (failures e 0 max_retries))
                 (startup_calls e 0 (failures e 0 max_retries)))
            else
              (Ok FunctionReturned,
               extend st [] (waiting_lines 0 (max_retries - 1) ++ giving_up e)%list
                 (startup_calls e 0 (max_retries - 1)))) as Hloop.
  { exact (connect_loop_run (max_retries - 1) 0 None st eq_refl). }
  destruct (Nat.ltb (failures e 0 max_retries) max_retries).
  - unfold socket_server, bind, mbind, M_bind, mret, M_ret, raise.
    rewrite Hloop, print_run, !do_call_run.
    destruct (bind_outcome e) as [err | ].
    + do 3 eexists. cbn [snd]. rewrite !extend_extend, <- ?app_assoc. cbn [app].
      split; reflexivity.
    + rewrite do_call_run, print_run.
      match goal with |- context [accept_loop arrivals ?s] =>
        destruct (accept_loop_delta arrivals s) as (d & l & c & Hrun & _ & _ & Hm);
        rewrite Hrun
      end.
      do 3 eexists. cbn [snd]. rewrite !extend_extend, <- ?app_assoc. cbn [app].
      split; [reflexivity | ]. cbn. exact Hm.
  - unfold socket_server, mbind, M_bind. rewrite Hloop. reflexivity.
Qed.
End IngestProperties.

Lemma matches_app (p1 p2 : list pattern_item) (s1 s2 : string) :
  matches p1 s1 = true -> matches p2 s2 = true ->
  matches (p1 ++ p2) (s1 ++ s2) = true.
Proof.
  revert s1. induction p1 as [| item p1 IH]; intros s1 H1 H2.
  - destruct s1; [exact H2 | discriminate].
  - destruct s1 as [| a s1]; [destruct item; discriminate | ].
    change (String a s1 ++ s2) with (String a (s1 ++ s2)).
    destruct item as [| c]; cbn in H1 |- *.
    + apply andb_true_iff in H1 as [-> H1]. cbn. apply IH; assumption.
    + apply andb_true_iff in H1 as [-> H1]. cbn. apply IH; assumption.
Qed.

Lemma digit_matches (n : Z) : matches [Digit] (digit n) = true.
Proof.
  unfold digit.
  assert (0 <= n mod 10 < 10)%Z as Hm by (apply Z.mod_pos_bound; lia).
  assert (n mod 10 = 0 \/ n mod 10 = 1 \/ n mod 10 = 2 \/ n mod 10 = 3 \/ n mod 10 = 4
          \/ n mod 10 = 5 \/ n mod 10 = 6 \/ n mod 10 = 7 \/ n mod 10 = 8
          \/ n mod 10 = 9)%Z as Hcases by lia.
  repeat (destruct Hcases as [-> | Hcases]; [reflexivity | ]). now rewrite Hcases.
Qed.

Lemma zero_fill_matches (w : nat) (n : Z) :
  (0 <= n < 10 ^ Z.of_nat w)%Z ->
  matches (replicate w Digit) (zero_fill w n) = true.
Proof.
  revert n. induction w as [| w IH]; intros n Hn.
  - assert (n = 0%Z) as -> by (cbn in Hn; lia). reflexivity.
  - change (zero_fill (S w) n) with (zero_fill w (n / 10) ++ digit n).
    rewrite replicate_S_end.
    apply matches_app; [ | apply digit_matches].
    apply IH. rewrite Nat2Z.inj_succ, Z.pow_succ_r in Hn by lia.
    split; [apply Z.div_pos; lia | apply Z.div_lt_upper_bound; lia].
Qed.

Lemma strftime_matches (dt : Ingest.datetime) :
  clock_reading dt -> matches timestamp_pattern (Ingest.strftime dt) = true.
Proof.
  intros (Hy & Hmo & Hd & Hh & Hmi & Hs & Hus).
  unfold Ingest.strftime, timestamp_pattern.
  repeat (apply matches_app; [try reflexivity; apply zero_fill_matches; cbn; lia | ]).
  apply zero_fill_matches; cbn; lia.
Qed.

Lemma read_digits_split (w1 w2 : nat) (acc : Z) (s : string) :
  read_digits (w1 + w2) acc s
  = match read_digits w1 acc s with
    | Some (v, r) => read_digits w2 v r
    | None => None
    end.
Proof.
  revert acc s. induction w1 as [| w1 IH]; intros acc s; [reflexivity | ].
  cbn [Nat.add read_digits]. destruct s as [| a s]; [reflexivity | ].
  destruct ((48 <=? N_of_ascii a)%N && (N_of_ascii a <=? 57)%N); [apply IH | reflexivity].
Qed.

Lemma read_digit (n acc : Z) (rest : string) :
  read_digits 1 acc (digit n ++ rest) = Some ((10 * acc + n mod 10)%Z, rest).
Proof.
  unfold digit.
  assert (0 <= n mod 10 < 10)%Z as Hm by (apply Z.mod_pos_bound; lia).
  assert (n mod 10 = 0 \/ n mod 10 = 1 \/ n mod 10 = 2 \/ n mod 10 = 3 \/ n mod 10 = 4
          \/ n mod 10 = 5 \/ n mod 10 = 6 \/ n mod 10 = 7 \/ n mod 10 = 8
          \/ n mod 10 = 9)%Z as Hcases by lia.
  repeat (destruct Hcases as [-> | Hcases]; [reflexivity | ]). now rewrite Hcases.
Qed.

Lemma read_zero_fill (w : nat) (n acc : Z) (rest : string) :
  (0 <= n < 10 ^ Z.of_nat w)%Z ->
  read_digits w acc (zero_fill w n ++ rest) = Some ((10 ^ Z.of_nat w * acc + n)%Z, rest).
Proof.
  revert n acc rest. induction w as [| w IH]; intros n acc rest Hn.
  - assert (n = 0%Z) as -> by (cbn in Hn; lia). cbn. f_equal. f_equal. lia.
  - change (zero_fill (S w) n) with (zero_fill w (n / 10) ++ digit n).
    rewrite append_assoc. replace (S w) with (w + 1) at 1 by lia.
    rewrite Nat2Z.inj_succ, Z.pow_succ_r in * by lia.
    rewrite read_digits_split, IH, read_digit.
    + f_equal. f_equal. pose proof (Z.div_mod n 10). lia.
    + split; [apply Z.div_pos; lia | apply Z.div_lt_upper_bound; lia].
Qed.

Lemma read_char_here (c : ascii) (rest : string) :
  read_char c (String c "" ++ rest) = Some rest.
Proof.
  change (String c "" ++ rest) with (String c rest). cbn. now rewrite Ascii.eqb_refl.
Qed.

(** The text that [strftime] writes for a clock reading reads back as
    the clock reading. *)
Lemma read_timestamp_strftime (dt : Ingest.datetime) :
  clock_reading dt -> read_timestamp (Ingest.strftime dt) = Some dt.
Proof.
  intros (Hy & Hmo & Hd & Hh & Hmi & Hs & Hus).
  unfold read_timestamp, Ingest.strftime.
  rewrite <- (append_empty_r (zero_fill 6 _)).
  repeat (rewrite read_zero_fill by (cbn; lia); cbn [mbind option_bind];
          try (rewrite read_char_here; cbn [mbind option_bind])).
  rewrite !Z.mul_0_r, !Z.add_0_l. now destruct dt.
Qed.

Lemma last_two {A} (l : list A) (a b : A) : last (l ++ [a; b]) = Some b.
Proof.
  change [a; b] with ([a] ++ [b])%list. rewrite app_assoc. apply last_snoc.
Qed.

Section IngestClaims.
Import Ingest.
Context `{PyLib}.

Lemma received_chunks (chunks : list bytes) (data : bytes) :
  Forall (fun b => b <> "") chunks ->
  received (Chunk <$> chunks) data = Ok (data ++ join_chunks chunks).
Proof.
  intros Hne. revert data. induction Hne as [| chunk chunks Hc _ IH]; intros data; cbn.
  - now rewrite append_empty_r.
  - apply String.eqb_neq in Hc. rewrite Hc, IH. now rewrite append_assoc.
Qed.

(** A connection whose document cannot be built leaves the datastore as
    it was and is closed. *)
Lemma serve_one_dropped (c : connection) (st : state) data err :
  received (recvs c) "" = Ok data ->
  build_document c data = Raise err ->
  exists st',
    serve_one (Accepted c) st = (Ok tt, st')
    /\ collection st' = collection st
    /\ inserts (calls st') = inserts (calls st)
    /\ last (calls st') = Some Close
    /\ last (stdout st') = Some (failure_line err).
Proof.
  intros Hdata Hbuild. rewrite serve_one_run. cbn zeta. rewrite Hdata, Hbuild.
  eexists. split; [reflexivity | ]. cbn.
  destruct (recvs_count_nothing (recv_count (recvs c))) as (_ & _ & _ & Hi).
  rewrite app_nil_r, !inserts_app. cbn. rewrite inserts_app, Hi. cbn.
  rewrite app_nil_r.
  repeat split.
  - rewrite app_comm_cons, app_assoc. apply last_snoc.
  - apply last_two.
Qed.

Lemma accept_loop_cons (inc : incoming) (rest : list incoming) (st st' : state) :
  serve_one inc st = (Ok tt, st') ->
  accept_loop (inc :: rest) st = accept_loop rest st'.
Proof.
  intros Hrun. cbn [accept_loop]. unfold mbind, M_bind. now rewrite Hrun.
Qed.

(** C6.  A connection whose bytes do not decode as UTF-8, or whose text
    is not JSON, stores nothing: no [insert_one] is called, the
    connection is closed, and the loop goes on with the next arrival.
    And whatever arrives (an [accept] that raises, a [recv] that raises,
    bytes that do not parse, an insert that raises), a pass of the loop
    ends without an exception: the loop accepts once for each arrival. *)
Theorem unparsable_payload_dropped :
  (forall (c : connection) (st : state) data err rest,
      received (recvs c) "" = Ok data ->
      (utf8_decode data = Raise err
       \/ exists text, utf8_decode data = Ok text /\ json_loads text = Raise err) ->
      exists st',
        serve_one (Accepted c) st = (Ok tt, st')
        /\ collection st' = collection st
        /\ inserts (calls st') = inserts (calls st)
        /\ last (calls st') = Some Close
        /\ accept_loop (Accepted c :: rest) st = accept_loop rest st')
  /\ (forall (inc : incoming) (st : state),
      exists st',
        serve_one inc st = (Ok tt, st')
        /\ accepts (calls st') = S (accepts (calls st)))
  /\ (forall (arrivals : list incoming) (st : state),
      exists st',
        accept_loop arrivals st = (Ok tt, st')
        /\ accepts (calls st') = accepts (calls st) + List.length arrivals).
Proof.
  split; [ | split].
  - intros c st data err rest Hdata Hbad.
    assert (build_document c data = Raise err) as Hbuild.
    { unfold build_document. destruct Hbad as [-> | (text & -> & ->)]; reflexivity. }
    destruct (serve_one_dropped c st data err Hdata Hbuild)
      as (st' & Hrun & Hcol & Hins & Hclose & _).
    exists st'. repeat split; try assumption. now apply accept_loop_cons.
  - intros inc st. destruct (serve_one_delta inc st) as (d & l & cs & Hrun & Ha & _).
    eexists. split; [exact Hrun | ]. cbn. rewrite accepts_app, Ha. lia.
  - intros arrivals st.
    destruct (accept_loop_delta arrivals st) as (d & l & cs & Hrun & Ha & _).
    eexists. split; [exact Hrun | ]. cbn. rewrite accepts_app, Ha. lia.
Qed.

(** C10.  A connection whose bytes are valid JSON but not an object
    stores nothing: [get] raises an attribute error, which the generic
    handler of the inner [try] catches and prints; no [insert_one] is
    called, the connection is closed and the loop goes on with the next
    arrival. *)
Theorem non_object_payload_dropped (c : connection) (st : state) data text v rest :
  received (recvs c) "" = Ok data ->
  utf8_decode data = Ok text ->
  json_loads text = Ok v ->
  (forall m, v <> JObj m) ->
  exists st',
    serve_one (Accepted c) st = (Ok tt, st')
    /\ collection st' = collection st
    /\ inserts (calls st') = inserts (calls st)
    /\ last (calls st') = Some Close
    /\ last (stdout st')
       = Some ("Error saving to MongoDB: '" ++ type_name v
               ++ "' object has no attribute 'get'")
    /\ accept_loop (Accepted c :: rest) st = accept_loop rest st'.
Proof.
  intros Hdata Hdec Hloads Hnot.
  set (err := Exn AttributeError ("'" ++ type_name v ++ "' object has no attribute 'get'")).
  assert (build_document c data = Raise err) as Hbuild.
  { unfold build_document. rewrite Hdec, Hloads.
    destruct v as [| | | | | items]; try reflexivity. now destruct (Hnot items). }
  destruct (serve_one_dropped c st data err Hdata Hbuild)
    as (st' & Hrun & Hcol & Hins & Hclose & Hline).
  exists st'. repeat split; try assumption. now apply accept_loop_cons.
Qed.

(** The fields of the record kept of a dict with the three items. *)
Lemma record_of_fields (c : connection) (date username message : bson) :
  let r := record_of c [("date", date); ("username", username); ("message", message)] in
  dom r = ({[ "date"; "username"; "message"; "_id" ]} : gset string)
  /\ r !! "date" = Some date
  /\ r !! "username" = Some username
  /\ r !! "message" = Some message
  /\ r !! "_id" = Some (ObjectId (new_id c)).
Proof.
  unfold record_of, identified.
  cbn [dict_get String.eqb Ascii.eqb Bool.eqb app list_to_map foldr uncurry fst snd].
  split; [rewrite !dom_insert_L, dom_empty_L; set_solver | ].
  split; [reflexivity | ]. split; [reflexivity | ]. split; reflexivity.
Qed.

(** C7.  The record stored for a payload that parses as a JSON object
    has exactly four fields: [date], [username] and [message], which the
    program puts in the dict that it hands to [insert_one], and [_id],
    the identifier that [insert_one] adds to the dict.  The date is a
    text in the format YYYY-MM-DD HH:MM:SS.ffffff that reads back as the
    clock reading at ingest; [username] and [message] are those of the
    payload, the empty text standing for one that is absent. *)
Theorem stored_record_shape (c : connection) (st : state) data text obj :
  received (recvs c) "" = Ok data ->
  utf8_decode data = Ok text ->
  json_loads text = Ok (JObj obj) ->
  insert_outcome c = None ->
  clock_reading (now c) ->
  exists st' (r : gmap string bson) (ts : str),
    serve_one (Accepted c) st = (Ok tt, st')
    /\ collection st' = (collection st ++ [r])%list
    /\ dom r = ({[ "date"; "username"; "message"; "_id" ]} : gset string)
    /\ r !! "date" = Some (Json (JStr ts))
    /\ matches timestamp_pattern ts = true
    /\ read_timestamp ts = Some (now c)
    /\ r !! "username" = Some (Json (default (JStr "") (dict_get "username" obj)))
    /\ r !! "message" = Some (Json (default (JStr "") (dict_get "message" obj)))
    /\ r !! "_id" = Some (ObjectId (new_id c))
    /\ inserts (calls st')
       = (inserts (calls st)
          ++ [[("date", Json (JStr ts));
               ("username", Json (default (JStr "") (dict_get "username" obj)));
               ("message", Json (default (JStr "") (dict_get "message" obj)))]])%list.
Proof.
  intros Hdata Hdec Hloads Hins Hclock.
  rewrite serve_one_run. cbn zeta. rewrite Hdata. unfold build_document.
  rewrite Hdec, Hloads. cbn [get]. rewrite Hins.
  destruct (recvs_count_nothing (recv_count (recvs c))) as (_ & _ & _ & Hi).
  destruct (record_of_fields c (Json (JStr (strftime (now c))))
              (Json (default (JStr "") (dict_get "username" obj)))
              (Json (default (JStr "") (dict_get "message" obj))))
    as (Hdom & Hdate & Huser & Hmessage & Hid).
  eexists _, _, (strftime (now c)). split; [reflexivity | ]. cbn [collection calls extend].
  split; [reflexivity | ].
  split; [exact Hdom | ].
  split; [exact Hdate | ].
  split; [now apply strftime_matches | ].
  split; [now apply read_timestamp_strftime | ].
  split; [exact Huser | ].
  split; [exact Hmessage | ].
  split; [exact Hid | ].
  rewrite inserts_app. cbn. now rewrite inserts_app, Hi.
Qed.
End IngestClaims.

Section StartupClaims.
Import Ingest.
Context `{PyLib}.
Variable e : env.

Lemma checks_made_app (a b : list call) :
  checks_made (a ++ b) = checks_made a + checks_made b.
Proof.
  induction a as [| [] a IH]; cbn; congruence.
Qed.

(** When the constructor never raises, every attempt is a construction
    followed by a check. *)
Lemma startup_calls_checked (i fails : nat) :
  (forall k, k < i + S fails -> client_outcome e k = None) ->
  startup_calls e i fails
  = (List.concat (replicate fails [MongoClient (mongo_uri e) 2000; ServerInfo; Sleep 1])
     ++ [MongoClient (mongo_uri e) 2000; ServerInfo])%list.
Proof.
  revert i. induction fails as [| fails IH]; intros i Hc; cbn [startup_calls].
  - unfold attempt_calls. rewrite Hc by lia. reflexivity.
  - unfold attempt_calls at 1. rewrite Hc by lia. rewrite IH; [reflexivity | ].
    intros k Hk. apply Hc. lia.
Qed.

(** The checks of a start-up are those of the attempts whose constructor
    returned: there are no more checks than attempts. *)
Lemma checks_made_startup (i fails : nat) :
  checks_made (startup_calls e i fails) <= S fails.
Proof.
  revert i. induction fails as [| fails IH]; intros i; cbn [startup_calls].
  - unfold attempt_calls. destruct (client_outcome e i); cbn; lia.
  - rewrite checks_made_app. specialize (IH (S i)).
    unfold attempt_calls. destruct (client_outcome e i); cbn; lia.
Qed.

(** C5.  At start-up the datastore is tried at most 30 times.  An attempt
    is the construction of the client, followed by the check with
    [server_info] when the constructor returns: an attempt whose
    constructor raises fails without a check.  The calls made are, for a
    number of failed attempts below 30, each failed attempt followed by
    a delay of one second, then the last attempt, with nothing between
    them; when no constructor raises, every attempt is a construction
    and a check.  If all 30 attempts fail, the function prints the
    failure and returns: no call follows the last attempt, in particular
    no [bind]. *)
Theorem startup_attempts_bounded (arrivals : list incoming) :
  let run := socket_server e arrivals initial in
  let attempt := [MongoClient (mongo_uri e) 2000; ServerInfo] in
  (exists fails rest,
      fails < 30
      /\ calls (snd run) = (startup_calls e 0 fails ++ rest)%list
      /\ attempts_made rest = 0
      /\ attempts_made (calls (snd run)) = S fails
      /\ ((forall k, k <= fails -> client_outcome e k = None) ->
          calls (snd run)
          = (List.concat (replicate fails (attempt ++ [Sleep 1])) ++ attempt ++ rest)%list))
  /\ attempts_made (calls (snd run)) <= 30
  /\ ((forall k, k < 30 -> attempt_outcome e k <> None) ->
      fst run = Ok Returned
      /\ calls (snd run) = startup_calls e 0 29
      /\ checks_made (calls (snd run)) <= 30
      /\ binds (calls (snd run)) = 0
      /\ collection (snd run) = []
      /\ exists err,
           attempt_outcome e 29 = Some err
           /\ last (stdout (snd run)) = Some (giving_up_line err)).
Proof.
  intros run attempt.
  pose proof (socket_server_run e arrivals initial) as Hrun. cbn zeta in Hrun.
  pose proof (failures_bound e 0 max_retries) as Hbound.
  destruct (Nat.ltb (failures e 0 max_retries) max_retries) eqn:Hlt.
  - destruct Hrun as (docs & lines & rest & Hst & Hrest).
    apply Nat.ltb_lt in Hlt.
    assert (calls (snd run)
            = (startup_calls e 0 (failures e 0 max_retries) ++ rest)%list) as Hcalls.
    { subst run. now rewrite Hst. }
    assert (attempts_made (calls (snd run)) = S (failures e 0 max_retries)) as Hmade.
    { rewrite Hcalls, attempts_made_app, attempts_made_startup, Hrest. lia. }
    split; [ | split].
    + exists (failures e 0 max_retries), rest.
      split; [exact Hlt | ]. split; [exact Hcalls | ]. split; [exact Hrest | ].
      split; [exact Hmade | ].
      intros Hc. rewrite Hcalls, startup_calls_checked.
      * subst attempt. now rewrite <- !app_assoc.
      * intros k Hk. apply Hc. lia.
    + unfold max_retries in *. lia.
    + intros Hall. exfalso.
      rewrite (failures_all e 0 max_retries) in Hlt; [lia | ].
      intros k Hk. apply Hall. exact Hk.
  - subst run. rewrite Hrun. cbn [fst snd calls stdout collection extend initial app].
    rewrite attempts_made_startup. change (max_retries - 1) with 29.
    split; [ | split].
    + exists 29, [].
      split; [lia | ]. split; [now rewrite app_nil_r | ]. split; [reflexivity | ].
      split; [reflexivity | ].
      intros Hc. rewrite (startup_calls_checked 0 29).
      * subst attempt. now rewrite app_nil_r.
      * intros k Hk. apply Hc. lia.
    + change max_retries with 30. lia.
    + intros Hall. split; [reflexivity | split; [reflexivity | ]].
      split; [apply (checks_made_startup 0 29) | ].
      split; [apply binds_startup | split; [reflexivity | ]].
      destruct (attempt_outcome e 29) as [err | ] eqn:Hout.
      2: { exfalso. apply (Hall 29); [lia | exact Hout]. }
      exists err. split; [reflexivity | ].
      unfold giving_up. change (max_retries - 1) with 29. rewrite Hout.
      apply last_snoc.
Qed.
End StartupClaims.

(** C1.  A POST to /message whose form gives a user name and a message,
    both filled in, with the ingest server reachable ([connect] and
    [sendall] return, and the server receives the bytes sent, in chunks
    of any size, and reads them back as the object sent), is answered
    with status 200 after one connection to the ingest server; and the
    ingest server calls [insert_one] once, with a dict whose user name
    and message are the ones submitted.  When the datastore accepts the
    insert, the collection gains exactly one record, with the user name
    and the message submitted; when the datastore refuses it, the
    collection is left as it was. *)
Theorem valid_post_stored_once `{PyLib} (he : Http.env) (req : Http.request)
    form username message (c : Ingest.connection) (chunks : list bytes)
    (st : Ingest.state) :
  urlparse_path (Http.req_path req) = Ok "/message" ->
  Http.read_form req = Ok form ->
  Http.form_field form "username" = Ok username ->
  Http.form_field form "message" = Ok message ->
  username <> "" -> message <> "" ->
  Http.connect_outcome he = None ->
  Http.sendall_outcome he = None ->
  Ingest.recvs c = Ingest.Chunk <$> chunks ->
  Forall (fun b => b <> "") chunks ->
  join_chunks chunks
  = Http.sent_bytes (Http.sock_calls (snd (Http.do_POST he req Http.initial))) ->
  (exists text,
      utf8_decode (utf8_encode (json_dumps (Http.payload username message))) = Ok text
      /\ json_loads text = Ok (Http.payload username message)) ->
  exists hst' st' (doc : list (str * bson)),
    Http.do_POST he req Http.initial = (Ok tt, hst')
    /\ Http.status_of (Http.output hst') = Some 200%Z
    /\ Http.connects (Http.sock_calls hst') = [Http.SockConnect "localhost" 5001]
    /\ Ingest.serve_one (Ingest.Accepted c) st = (Ok tt, st')
    /\ Ingest.inserts (Ingest.calls st') = (Ingest.inserts (Ingest.calls st) ++ [doc])%list
    /\ dict_get "username" doc = Some (Json (JStr username))
    /\ dict_get "message" doc = Some (Json (JStr message))
    /\ (Ingest.insert_outcome c = None ->
        exists r : gmap string bson,
          Ingest.collection st' = (Ingest.collection st ++ [r])%list
          /\ r !! "username" = Some (Json (JStr username))
          /\ r !! "message" = Some (Json (JStr message)))
    /\ (Ingest.insert_outcome c <> None ->
        Ingest.collection st' = Ingest.collection st).
Proof.
  intros Hp Hf Hu Hm Hu' Hm' Hconn Hsend Hrecvs Hne Hwire (text & Hdec & Hloads).
  rewrite (do_POST_run he req form username message Hp Hf Hu Hm) in Hwire |- *.
  rewrite (truthy_true _ Hu'), (truthy_true _ Hm') in Hwire |- *.
  cbn [andb snd Http.sock_calls] in Hwire |- *.
  unfold forward_calls, forward_error in Hwire |- *.
  rewrite Hconn in Hwire |- *. rewrite Hsend.
  cbn in Hwire. rewrite append_empty_r in Hwire.
  assert (received (Ingest.recvs c) "" = Ok (utf8_encode (json_dumps (Http.payload username message))))
    as Hdata.
  { rewrite Hrecvs, (received_chunks chunks "" Hne), Hwire. reflexivity. }
  set (doc := [("date", Json (JStr (Ingest.strftime (Ingest.now c))));
               ("username", Json (JStr username)); ("message", Json (JStr message))]).
  assert (build_document c (utf8_encode (json_dumps (Http.payload username message)))
          = Ok doc) as Hbuild.
  { unfold build_document. rewrite Hdec, Hloads. reflexivity. }
  destruct (record_of_fields c (Json (JStr (Ingest.strftime (Ingest.now c))))
              (Json (JStr username)) (Json (JStr message)))
    as (_ & _ & Huser & Hmessage & _).
  rewrite serve_one_run. cbn zeta. rewrite Hdata, Hbuild.
  destruct (recvs_count_nothing (recv_count (Ingest.recvs c))) as (_ & _ & _ & Hi).
  destruct (Ingest.insert_outcome c) as [err | ] eqn:Hins.
  - eexists _, _, doc. do 4 (split; [reflexivity | ]). cbn.
    rewrite inserts_app. cbn. rewrite inserts_app, Hi. cbn. rewrite app_nil_r.
    split; [reflexivity | ]. split; [reflexivity | ]. split; [reflexivity | ].
    split; [discriminate | reflexivity].
  - eexists _, _, doc. do 4 (split; [reflexivity | ]). cbn [Ingest.calls Ingest.collection extend].
    rewrite inserts_app. cbn [Ingest.inserts]. rewrite inserts_app, Hi. cbn [app Ingest.inserts].
    split; [reflexivity | ]. split; [reflexivity | ]. split; [reflexivity | ].
    split; [ | intros Hx; now destruct Hx].
    intros _. exists (record_of c doc). split; [reflexivity | ].
    split; [exact Huser | exact Hmessage].
Qed.

(** ** The reference [parse_qs] *)

Section RefParse.

(** The values given to [name] in a list of fields, in order. *)
Lemma qs_dict_fold (pairs : list (str * str)) (d : gmap string (list str)) (name : str) :
  foldl (fun d nv => Ref.add_value (fst nv) (snd nv) d) d pairs !! name
  = match values_of name pairs with
    | [] => d !! name
    | values => Some (default [] (d !! name) ++ values)%list
    end.
Proof.
  revert d. induction pairs as [| [n v] pairs IH]; intros d; [reflexivity | ].
  cbn [foldl fst snd values_of]. rewrite IH. unfold Ref.add_value.
  destruct (String.eqb_spec n name) as [-> | Hne].
  - destruct (d !! name) as [values | ] eqn:Hd; rewrite lookup_insert_eq;
      destruct (values_of name pairs); cbn; rewrite <- ?app_assoc; reflexivity.
  - destruct (d !! n); now rewrite lookup_insert_ne by exact Hne.
Qed.

(** The reference [parse_qs] groups the fields of the body by name, in
    the order of the body. *)
Lemma qs_dict_groups (pairs : list (str * str)) : groups (Ref.qs_dict pairs) pairs.
Proof.
  intros name. unfold Ref.qs_dict. rewrite qs_dict_fold, lookup_empty.
  destruct (values_of name pairs); reflexivity.
Qed.

(** So that [form_field] gives the first value of a field that comes
    several times. *)
Lemma qs_dict_first_value (pairs : list (str * str)) (name : str) :
  Http.form_field (Ref.qs_dict pairs) name = Ok (first_value name pairs).
Proof.
  apply form_field_groups, qs_dict_groups.
Qed.

End RefParse.

(** * The theorems at the sample inputs *)

Section Witnesses.
Import Sample.
#[local] Existing Instance Ref.lib.

Lemma post_blank_field_rejected_witness :
  exists st',
    Http.do_POST ingest_up post_blank Http.initial = (Ok tt, st')
    /\ Http.status_of (Http.output st') = Some 400%Z
    /\ Http.body_of (Http.output st') = "Username and message are required"
    /\ Http.sock_calls st' = []
    /\ Http.connects (Http.sock_calls st') = [].
Proof.
  apply (post_blank_field_rejected ingest_up post_blank
           (Ref.parse "username=&message=hello") "" "hello");
    [vm_compute; reflexivity .. | left; reflexivity].
Defined.

Lemma post_forwarding_failure_reported_witness :
  exists st',
    Http.do_POST ingest_down post_bob Http.initial = (Ok tt, st')
    /\ Http.status_of (Http.output st') = Some 500%Z
    /\ Http.body_of (Http.output st') = "Error: [Errno 111] Connection refused".
Proof.
  refine (post_forwarding_failure_reported ingest_down post_bob
            (Ref.parse "username=bob&message=hi+there&username=eve") "bob" "hi there"
            refused _ _ _ _ _ _ _);
    [vm_compute; reflexivity | vm_compute; reflexivity | vm_compute; reflexivity
     | vm_compute; reflexivity | discriminate | discriminate | left; reflexivity].
Defined.



Lemma post_answer_ignores_field_values_witness :
  Http.output (snd (Http.do_POST ingest_up post_alice Http.initial))
  = Http.output (snd (Http.do_POST ingest_up post_bob Http.initial)).
Proof.
  apply (post_answer_ignores_field_values ingest_up ingest_up post_alice post_bob
           (Ref.parse "username=alice&message=hello")
           (Ref.parse "username=bob&message=hi+there&username=eve")
           "alice" "hello" "bob" "hi there"); vm_compute; reflexivity.
Defined.

Lemma startup_attempts_bounded_witness :
  fst (Ingest.socket_server datastore_down [] Ingest.initial) = Ok Ingest.Returned
  /\ attempts_made
       (Ingest.calls (snd (Ingest.socket_server datastore_down [] Ingest.initial))) <= 30
  /\ Ingest.binds (Ingest.calls (snd (Ingest.socket_server datastore_down [] Ingest.initial)))
     = 0.
Proof.
  destruct (startup_attempts_bounded datastore_down []) as (_ & Hmost & Hall).
  destruct Hall as (Hret & _ & _ & Hbind & _); [intros k _; discriminate | ].
  split; [exact Hret | split; [exact Hmost | exact Hbind]].
Defined.

(** With a port that the constructor of the client refuses, the start-up
    makes its 30 attempts without one liveness check. *)
Lemma startup_without_liveness_check :
  fst (Ingest.socket_server port_out_of_range [] Ingest.initial) = Ok Ingest.Returned
  /\ attempts_made
       (Ingest.calls (snd (Ingest.socket_server port_out_of_range [] Ingest.initial))) = 30
  /\ checks_made
       (Ingest.calls (snd (Ingest.socket_server port_out_of_range [] Ingest.initial))) = 0.
Proof.
  vm_compute. auto.
Qed.

Lemma unparsable_payload_dropped_witness :
  exists st',
    Ingest.serve_one (Ingest.Accepted connection_garbage) Ingest.initial = (Ok tt, st')
    /\ Ingest.collection st' = []
    /\ Ingest.inserts (Ingest.calls st') = []
    /\ last (Ingest.calls st') = Some Ingest.Close
    /\ Ingest.accept_loop [Ingest.Accepted connection_garbage; Ingest.Accepted connection_alice]
         Ingest.initial
       = Ingest.accept_loop [Ingest.Accepted connection_alice] st'.
Proof.
  apply (proj1 unparsable_payload_dropped connection_garbage Ingest.initial
           "username=alice" (Exn JSONDecodeError "Expecting value")
           [Ingest.Accepted connection_alice]);
    [vm_compute; reflexivity | right; exists "username=alice"; split; vm_compute; reflexivity].
Defined.

Lemma non_object_payload_dropped_witness :
  exists st',
    Ingest.serve_one (Ingest.Accepted connection_array) Ingest.initial = (Ok tt, st')
    /\ Ingest.collection st' = []
    /\ Ingest.inserts (Ingest.calls st') = []
    /\ last (Ingest.calls st') = Some Ingest.Close
    /\ last (Ingest.stdout st')
       = Some "Error saving to MongoDB: 'list' object has no attribute 'get'"
    /\ Ingest.accept_loop [Ingest.Accepted connection_array] Ingest.initial
       = Ingest.accept_loop [] st'.
Proof.
  apply (non_object_payload_dropped connection_array Ingest.initial
           "[1, 2]" "[1, 2]" (JArr [JNum "1"; JNum "2"]) []);
    [vm_compute; reflexivity | vm_compute; reflexivity | vm_compute; reflexivity
     | discriminate].
Defined.

Lemma stored_record_shape_witness :
  exists st' (r : gmap string bson) (ts : str),
    Ingest.serve_one (Ingest.Accepted connection_alice) Ingest.initial = (Ok tt, st')
    /\ Ingest.collection st' = [r]
    /\ dom r = ({[ "date"; "username"; "message"; "_id" ]} : gset string)
    /\ r !! "date" = Some (Json (JStr ts))
    /\ matches timestamp_pattern ts = true
    /\ read_timestamp ts = Some morning
    /\ r !! "username" = Some (Json (JStr "alice"))
    /\ r !! "message" = Some (Json (JStr "hello"))
    /\ r !! "_id" = Some (ObjectId "65ec0d2c8f1b2a0001c0ffee")
    /\ Ingest.inserts (Ingest.calls st')
       = [[("date", Json (JStr ts)); ("username", Json (JStr "alice"));
           ("message", Json (JStr "hello"))]].
Proof.
  apply (stored_record_shape connection_alice Ingest.initial wire_alice wire_alice
           [("username", JStr "alice"); ("message", JStr "hello")]);
    [vm_compute; reflexivity | vm_compute; reflexivity | vm_compute; reflexivity
     | reflexivity | vm_compute; intuition discriminate].
Defined.

(** The record kept of the message of [connection_alice] has a fourth
    field, the identifier. *)
Lemma stored_record_has_four_fields :
  exists r : gmap string bson,
    Ingest.collection (snd (Ingest.serve_one (Ingest.Accepted connection_alice) Ingest.initial))
    = [r]
    /\ size r = 4
    /\ r !! "_id" = Some (ObjectId "65ec0d2c8f1b2a0001c0ffee")
    /\ Ingest.stdout (snd (Ingest.serve_one (Ingest.Accepted connection_alice) Ingest.initial))
       = ["Connection from ('127.0.0.1', 50412)";
          "Saved message: {'date': '2024-03-09 07:05:00.004211', 'username': 'alice', "
          ++ "'message': 'hello', '_id': ObjectId('65ec0d2c8f1b2a0001c0ffee')}"].
Proof.
  eexists. split; [vm_compute; reflexivity | ]. vm_compute. auto.
Qed.

(** A valid message, forwarded and received whole, that the datastore
    refuses: the answer to the POST is 200 and no record is stored. *)
Lemma valid_post_lost_when_insert_fails :
  Http.form_field (Ref.parse "username=alice&message=hello") "username" = Ok "alice"
  /\ Http.form_field (Ref.parse "username=alice&message=hello") "message" = Ok "hello"
  /\ Http.status_of (Http.output (snd (Http.do_POST ingest_up post_alice Http.initial)))
     = Some 200%Z
  /\ join_chunks chunks_alice
     = Http.sent_bytes (Http.sock_calls (snd (Http.do_POST ingest_up post_alice Http.initial)))
  /\ Ingest.recvs MoreSample.connection_refused = Ingest.Chunk <$> chunks_alice
  /\ Ingest.serve_one (Ingest.Accepted MoreSample.connection_refused) Ingest.initial
     = (Ok tt,
        {| Ingest.collection := [];
           Ingest.stdout := ["Connection from ('127.0.0.1', 50414)";
                             "Error saving to MongoDB: not primary"];
           Ingest.calls :=
             [Ingest.Accept; Ingest.Recv 1024; Ingest.Recv 1024; Ingest.Recv 1024;
              Ingest.InsertOne
                [("date", Json (JStr "2024-03-09 07:05:00.004211"));
                 ("username", Json (JStr "alice")); ("message", Json (JStr "hello"))];
              Ingest.Close] |}).
Proof.
  vm_compute. auto 10.
Qed.

Lemma valid_post_stored_once_witness :
  exists hst' st' (doc : list (str * bson)),
    Http.do_POST ingest_up post_alice Http.initial = (Ok tt, hst')
    /\ Http.status_of (Http.output hst') = Some 200%Z
    /\ Http.connects (Http.sock_calls hst') = [Http.SockConnect "localhost" 5001]
    /\ Ingest.serve_one (Ingest.Accepted connection_alice) Ingest.initial = (Ok tt, st')
    /\ Ingest.inserts (Ingest.calls st') = [doc]
    /\ dict_get "username" doc = Some (Json (JStr "alice"))
    /\ dict_get "message" doc = Some (Json (JStr "hello"))
    /\ (Ingest.insert_outcome connection_alice = None ->
        exists r : gmap string bson,
          Ingest.collection st' = [r]
          /\ r !! "username" = Some (Json (JStr "alice"))
          /\ r !! "message" = Some (Json (JStr "hello")))
    /\ (Ingest.insert_outcome connection_alice <> None -> Ingest.collection st' = []).
Proof.
  apply (valid_post_stored_once ingest_up post_alice
           (Ref.parse "username=alice&message=hello") "alice" "hello"
           connection_alice chunks_alice Ingest.initial);
    [vm_compute; reflexivity | vm_compute; reflexivity | vm_compute; reflexivity
     | vm_compute; reflexivity | discriminate | discriminate | reflexivity | reflexivity
     | reflexivity | vm_compute; repeat constructor; discriminate
     | vm_compute; reflexivity
     | exists wire_alice; split; vm_compute; reflexivity].
Defined.

End Witnesses.

(** * Further properties *)

(** ** The HTTP handler *)

Section MoreHttpProperties.
Import Http.
Context `{PyLib}.
Variable e : env.

(** X1.  A POST to any path other than /message is answered with status
    404 and the not-found body; the request body is not read and no
    socket is opened. *)
Theorem post_other_path_not_found (req : request) (path : str) :
  urlparse_path (req_path req) = Ok path ->
  path <> "/message" ->
  exists st',
    do_POST e req initial = (not_found_end e, st')
    /\ status_of (output st') = Some 404%Z
    /\ body_of (output st') = not_found_body e
    /\ sock_calls st' = [].
Proof.
  intros Hp Hne. unfold do_POST. unfold mbind at 1. unfold M_bind, lift. rewrite Hp.
  apply String.eqb_neq in Hne. rewrite Hne.
  apply send_error_404_answer. discriminate.
Qed.

(** The run of [serve_file] on a file that is missing. *)
Lemma serve_file_missing (command filename content_type : str) :
  files e !! os_path_join FRONT_DIR filename = None ->
  serve_file e command filename content_type = send_error e command 404 "Not Found".
Proof.
  intros Hfile. unfold serve_file, os_path_exists. now rewrite Hfile.
Qed.

(** The run of [serve_file] on a path that exists and cannot be read:
    the status line and the headers are written, then the reading
    raises. *)
Lemma serve_file_unreadable (command filename content_type : str) (err : exn) :
  files e !! os_path_join FRONT_DIR filename = Some (Unreadable err) ->
  serve_file e command filename content_type initial
  = (Raise err, {| sock_calls := [];
                   output := [SendResponse 200; SendHeader "Content-type" content_type;
                              EndHeaders] |}).
Proof.
  intros Hfile. unfold serve_file, os_path_exists, read_file. rewrite Hfile. reflexivity.
Qed.

Lemma static_routes_functional (path file file' : str) :
  In (path, file) static_routes -> In (path, file') static_routes -> file = file'.
Proof.
  cbn. intros H1 H2.
  repeat (destruct H1 as [H1 | H1]; [injection H1 as <- <- | ]); try contradiction;
    repeat (destruct H2 as [H2 | H2]; [try discriminate H2; injection H2 as <- | ]);
    try contradiction; reflexivity.
Qed.

(** X2.  A GET whose target [urlparse] refuses makes [do_GET] raise
    before anything is written.  Every other GET gets a status line, 200
    or 404, and makes no call on a socket.  The status is 200 exactly
    when the path is one of the five routes and something stands under
    the name of its file; the body is then the content of the file, and
    when what stands there cannot be read no body follows the headers and
    the handler ends with the error of the reading.  A 404 carries the
    not-found body. *)
Theorem get_answer_complete (req : request) :
  match urlparse_path (req_path req) with
  | Raise err => do_GET e req initial = (Raise err, initial)
  | Ok path =>
      exists r st',
        do_GET e req initial = (r, st')
        /\ sock_calls st' = []
        /\ (status_of (output st') = Some 200%Z \/ status_of (output st') = Some 404%Z)
        /\ (status_of (output st') = Some 200%Z
            <-> exists file,
                  In (path, file) static_routes
                  /\ is_Some (files e !! os_path_join FRONT_DIR file))
        /\ (forall file,
              status_of (output st') = Some 200%Z ->
              In (path, file) static_routes ->
              match files e !! os_path_join FRONT_DIR file with
              | Some (Regular content) => r = Ok tt /\ body_of (output st') = content
              | Some (Unreadable err) => r = Raise err /\ body_of (output st') = ""
              | None => False
              end)
        /\ (status_of (output st') = Some 404%Z ->
            r = not_found_end e /\ body_of (output st') = not_found_body e)
  end.
Proof.
  destruct (urlparse_path (req_path req)) as [path | err] eqn:Hp.
  2: { unfold do_GET. unfold mbind at 1. unfold M_bind, lift. now rewrite Hp. }
  destruct (send_error_404_answer e "GET") as (st4 & Hrun4 & Hst4 & Hb4 & Hsock4);
    [discriminate | ].
  destruct (in_dec string_dec path (List.map fst static_routes)) as [Hin | Hnot].
  - apply in_map_iff in Hin as ([p file] & Hpf & Hin). cbn in Hpf. subst p.
    destruct (do_GET_route e req path file Hp Hin) as [content_type ->].
    destruct (files e !! os_path_join FRONT_DIR file) as [[content | err] | ] eqn:Hfile.
    + rewrite (serve_file_found e _ _ _ _ Hfile). do 2 eexists. split; [reflexivity | ].
      cbn. split; [reflexivity | ]. split; [now left | ].
      split; [ | split; [ | discriminate]].
      * split; [ | reflexivity]. intros _. exists file. rewrite Hfile. eauto.
      * intros file' _ Hin'. rewrite <- (static_routes_functional _ _ _ Hin Hin'), Hfile.
        split; [reflexivity | apply append_empty_r].
    + rewrite (serve_file_unreadable _ _ _ _ Hfile). do 2 eexists. split; [reflexivity | ].
      cbn. split; [reflexivity | ]. split; [now left | ].
      split; [ | split; [ | discriminate]].
      * split; [ | reflexivity]. intros _. exists file. rewrite Hfile. eauto.
      * intros file' _ Hin'. rewrite <- (static_routes_functional _ _ _ Hin Hin'), Hfile.
        split; reflexivity.
    + rewrite (serve_file_missing _ _ _ Hfile). exists (not_found_end e), st4.
      split; [exact Hrun4 | ]. split; [exact Hsock4 | ]. split; [now right | ].
      rewrite Hst4. split; [ | split; [discriminate | auto]].
      split; [discriminate | ]. intros (file' & Hin' & Hsome).
      rewrite <- (static_routes_functional _ _ _ Hin Hin'), Hfile in Hsome.
      now destruct Hsome.
  - rewrite (do_GET_other e req path Hp Hnot). exists (not_found_end e), st4.
    split; [exact Hrun4 | ]. split; [exact Hsock4 | ]. split; [now right | ].
    rewrite Hst4. split; [ | split; [discriminate | auto]].
    split; [discriminate | ]. intros (file' & Hin' & _).
    exfalso. apply Hnot. apply in_map_iff. now exists (path, file').
Qed.

(** X3.  The answer to a GET on a route whose file exists declares the
    content type of the route: text/html for the pages, text/css for the
    style sheet and image/png for the logo. *)
Theorem get_content_type (req : request) (path file kind : str) (content : bytes) :
  urlparse_path (req_path req) = Ok path ->
  In (path, file) static_routes ->
  In (path, kind) route_types ->
  files e !! os_path_join FRONT_DIR file = Some (Regular content) ->
  header_of "Content-type" (output (snd (do_GET e req initial))) = Some kind.
Proof.
  intros Hp Hin Hkind Hfile. rewrite (do_GET_parsed e req path Hp).
  unfold static_routes, route_types in *. cbn in Hin, Hkind.
  repeat (destruct Hin as [Hin | Hin]; [injection Hin as <- <- | ]); try contradiction;
    repeat (destruct Hkind as [Hkind | Hkind];
            [try discriminate Hkind; injection Hkind as <- | ]);
    try contradiction;
    cbn [String.eqb Ascii.eqb Bool.eqb orb];
    rewrite (serve_file_found e _ _ _ _ Hfile); reflexivity.
Qed.




(** X5.  A POST to /message whose Content-Length is not a number, or
    does not fit a machine word, or is below -1, or whose body is not
    UTF-8, makes [do_POST] raise: nothing is written to the client and no
    socket is opened.  The error is that of [int], an overflow error,
    the error of the reader for a length from -2^63 to -2, and that of
    the decoder. *)
Theorem post_undecodable_body_raises (req : request) (err : exn) :
  urlparse_path (req_path req) = Ok "/message" ->
  (exists v, req_content_length req = Some v /\ py_int v = Raise err)
  \/ (exists n, content_length_of req = Ok n /\ (n < - 2 ^ 63 \/ 2 ^ 63 - 1 < n)%Z
                /\ err = Exn OverflowError "cannot fit 'int' into an index-sized integer")
  \/ (exists n, content_length_of req = Ok n /\ (- 2 ^ 63 <= n < -1)%Z
                /\ err = Exn ValueError "read length must be non-negative or -1")
  \/ (exists n data, content_length_of req = Ok n /\ rfile_read req n = Ok data
                     /\ utf8_decode data = Raise err) ->
  do_POST e req initial = (Raise err, initial).
Proof.
  intros Hp Hbad. unfold do_POST. unfold mbind at 1. unfold M_bind at 1. unfold lift at 1.
  rewrite Hp. cbn [String.eqb Ascii.eqb Bool.eqb].
  assert (read_form req = Raise err) as Hform.
  { unfold read_form.
    destruct Hbad as [(v & Hv & Hint) | [(n & Hn & Hout & ->) | [(n & Hn & Hlt & ->)
                     | (n & data & Hn & Hread & Hdec)]]].
    - unfold content_length_of. now rewrite Hv, Hint.
    - rewrite Hn. unfold rfile_read.
      assert (((n <? - 2 ^ 63) || (2 ^ 63 - 1 <? n))%Z = true) as ->; [ | reflexivity].
      apply orb_true_iff. rewrite !Z.ltb_lt. exact Hout.
    - rewrite Hn. unfold rfile_read.
      assert ((n <? - 2 ^ 63)%Z = false) as -> by (apply Z.ltb_ge; lia).
      assert ((2 ^ 63 - 1 <? n)%Z = false) as -> by (apply Z.ltb_ge; lia).
      assert ((0 <=? n)%Z = false) as -> by (apply Z.leb_gt; lia).
      assert ((n =? -1)%Z = false) as -> by (apply Z.eqb_neq; lia). reflexivity.
    - now rewrite Hn, Hread, Hdec. }
  unfold mbind, M_bind, lift. now rewrite Hform.
Qed.

(** X6.  A POST to /message without a Content-Length header reads no
    byte of the body: with a library for which the empty text decodes
    to the empty form, the answer is 400 whatever the body holds, and no
    socket is opened. *)
Theorem post_without_content_length (req : request) :
  urlparse_path (req_path req) = Ok "/message" ->
  req_content_length req = None ->
  utf8_decode "" = Ok "" ->
  parse_qs "" = ∅ ->
  do_POST e req initial = (Ok tt, {| sock_calls := []; output := answer_400 |}).
Proof.
  intros Hp Hnone Hdec Hqs.
  assert (read_form req = Ok ∅) as Hform.
  { unfold read_form, content_length_of, rfile_read. rewrite Hnone.
    change ((0 <? - 2 ^ 63) || (2 ^ 63 - 1 <? 0))%Z with false.
    change (0 <=? 0)%Z with true. change (Z.to_nat 0) with 0. cbn iota.
    assert (String.substring 0 0 (req_rfile req) = "") as ->
      by (destruct (req_rfile req); reflexivity).
    now rewrite Hdec, Hqs. }
  rewrite (do_POST_run e req ∅ "" "" Hp Hform); reflexivity.
Qed.

Lemma truthy_spec (s : str) : truthy s = true <-> s <> "".
Proof.
  unfold truthy. rewrite negb_true_iff. apply String.eqb_neq.
Qed.

(** X7.  On the message route, the answer is 200 exactly when both
    fields are filled in and [connect] and [sendall] both return; the
    socket calls are then one connection to port 5001 of localhost, one
    [sendall] of the encoded payload and the close. *)
Theorem post_200_iff_forwarded (req : request) form username message :
  urlparse_path (req_path req) = Ok "/message" ->
  read_form req = Ok form ->
  form_field form "username" = Ok username ->
  form_field form "message" = Ok message ->
  let st' := snd (do_POST e req initial) in
  (status_of (output st') = Some 200%Z
   <-> username <> "" /\ message <> ""
       /\ connect_outcome e = None /\ sendall_outcome e = None)
  /\ (status_of (output st') = Some 200%Z ->
      sock_calls st'
      = [SockCreate; SockConnect "localhost" 5001;
         SockSendall (utf8_encode (json_dumps (payload username message)));
         SockClose]).
Proof.
  intros Hp Hf Hu Hm st'. subst st'.
  rewrite (do_POST_run e req form username message Hp Hf Hu Hm).
  unfold forward_calls, forward_error.
  rewrite <- (truthy_spec username), <- (truthy_spec message).
  destruct (truthy username); destruct (truthy message);
    cbn [andb snd output sock_calls];
    try (cbn; split; [split; [discriminate | intros (? & ? & _); discriminate]
                     | discriminate]).
  destruct (connect_outcome e) as [err | ]; [ | destruct (sendall_outcome e) as [err | ]];
    cbn.
  - split; [split; [discriminate | intros (_ & _ & ? & _); discriminate] | discriminate].
  - split; [split; [discriminate | intros (_ & _ & _ & ?); discriminate] | discriminate].
  - split; [split; auto | reflexivity].
Qed.

(** The run of [send_to_socket_server] from any state. *)
Lemma send_to_socket_server_run (username message : str) (st : state) :
  send_to_socket_server e username message st
  = (match forward_error e with
     | None => Ok tt
     | Some err => Raise err
     end,
     {| sock_calls := (sock_calls st ++ forward_calls e username message)%list;
        output := output st |}).
Proof.
  unfold send_to_socket_server, sock_connect, sock_sendall, forward_calls, forward_error.
  unfold sock, mbind, M_bind, mret, M_ret, raise, effect, try_finally. cbn.
  destruct (connect_outcome e) as [err | ]; cbn; [now rewrite <- !app_assoc | ].
  destruct (sendall_outcome e) as [err | ]; cbn; now rewrite <- !app_assoc.
Qed.

(** X8.  Whatever happens, [send_to_socket_server] creates one socket
    and closes it once, as its last call, and writes nothing to the
    client; it sends at most once, and not at all when [connect] raises;
    it raises the error of [connect] or [sendall] when there is one. *)
Theorem forwarding_always_closes (username message : str) (st : state) :
  exists r cs,
    send_to_socket_server e username message st
    = (r, {| sock_calls := (sock_calls st ++ cs)%list; output := output st |})
    /\ hd_error cs = Some SockCreate
    /\ last cs = Some SockClose
    /\ sock_closes cs = 1
    /\ connects cs = [SockConnect "localhost" 5001]
    /\ sock_sends cs = match connect_outcome e with Some _ => 0 | None => 1 end
    /\ r = match connect_outcome e, sendall_outcome e with
           | Some err, _ => Raise err
           | None, Some err => Raise err
           | None, None => Ok tt
           end.
Proof.
  rewrite send_to_socket_server_run. unfold forward_calls, forward_error.
  do 2 eexists. split; [reflexivity | ].
  destruct (connect_outcome e) as [err | ]; cbn; [auto 10 | ].
  destruct (sendall_outcome e); auto 10.
Qed.

(** [do_POST] sees a request through its path and its decoded form. *)
Lemma do_POST_same_form (req1 req2 : request) :
  urlparse_path (req_path req1) = urlparse_path (req_path req2) ->
  read_form req1 = read_form req2 ->
  do_POST e req1 = do_POST e req2.
Proof.
  intros Hp Hf. unfold do_POST. now rewrite Hp, Hf.
Qed.

(** X9.  [do_POST] reads the body up to the declared length: two requests
    for the same path with the same Content-Length (a number that is
    not negative) whose bodies agree on that many bytes are answered
    alike, whatever follows in the stream. *)
Theorem post_reads_declared_length (req1 req2 : request) (n : Z) :
  urlparse_path (req_path req1) = urlparse_path (req_path req2) ->
  content_length_of req1 = Ok n ->
  content_length_of req2 = Ok n ->
  (0 <= n)%Z ->
  String.substring 0 (Z.to_nat n) (req_rfile req1)
  = String.substring 0 (Z.to_nat n) (req_rfile req2) ->
  do_POST e req1 initial = do_POST e req2 initial.
Proof.
  intros Hp H1 H2 Hn Hsame. rewrite (do_POST_same_form req1 req2 Hp); [reflexivity | ].
  unfold read_form, rfile_read. rewrite H1, H2.
  destruct ((n <? - 2 ^ 63) || (2 ^ 63 - 1 <? n))%Z; [reflexivity | ].
  assert ((0 <=? n)%Z = true) as -> by (apply Z.leb_le; exact Hn).
  now rewrite Hsame.
Qed.

End MoreHttpProperties.

(** ** The socket server *)

Lemma closes_app (a b : list Ingest.call) : closes (a ++ b) = closes a + closes b.
Proof.
  induction a as [| [] a IH]; cbn; congruence.
Qed.

Lemma listens_app (a b : list Ingest.call) : listens (a ++ b) = listens a + listens b.
Proof.
  induction a as [| [] a IH]; cbn; congruence.
Qed.

Lemma closes_recvs (k : nat) : closes (replicate k (Ingest.Recv 1024)) = 0.
Proof.
  induction k as [| k IH]; [reflexivity | exact IH].
Qed.

Section MoreIngestProperties.
Import Ingest.
Context `{PyLib}.

(** X10.  The [recv] loop gives the chunks received, in order, up to the
    first [recv] that gives no bytes, with one [recv] call for each
    chunk and one for the end; what the peer would send after that is
    not read.  When a [recv] raises, the loop raises its error. *)
Theorem recv_loop_accumulates (chunks : list bytes) (tail : list recv_result)
    (st : state) :
  Forall (fun b => b <> "") chunks ->
  let stop := {| collection := collection st; stdout := stdout st;
                 calls := (calls st
                           ++ replicate (S (List.length chunks)) (Recv 1024))%list |} in
  (tail = [] \/ (exists rest, tail = Chunk "" :: rest) ->
   recv_all ((Chunk <$> chunks) ++ tail) "" st = (Ok (join_chunks chunks), stop))
  /\ (forall err rest, tail = RecvError err :: rest ->
      recv_all ((Chunk <$> chunks) ++ tail) "" st = (Raise err, stop)).
Proof.
  intros Hne stop. subst stop.
  assert (forall data,
             received ((Chunk <$> chunks) ++ tail) data
             = match tail with
               | RecvError err :: _ => Raise err
               | Chunk chunk :: rest =>
                   if (chunk =? "")%string then Ok (data ++ join_chunks chunks)
                   else received rest ((data ++ join_chunks chunks) ++ chunk)
               | [] => Ok (data ++ join_chunks chunks)
               end) as Hdata.
  { induction Hne as [| chunk chunks Hc _ IH]; intros data.
    - cbn. rewrite append_empty_r. destruct tail as [| [chunk | err] rest]; reflexivity.
    - cbn. apply String.eqb_neq in Hc. rewrite Hc, IH.
      change (join_chunks (chunk :: chunks)) with (chunk ++ join_chunks chunks).
      now rewrite !append_assoc. }
  assert (forall r, (tail = [] \/ exists rest, tail = r :: rest) ->
             match r with Chunk chunk => chunk = "" | RecvError _ => True end ->
             recv_count ((Chunk <$> chunks) ++ tail) = S (List.length chunks)) as Hcount.
  { clear Hdata. intros r Htail Hr. induction Hne as [| chunk chunks Hc _ IH].
    - destruct Htail as [-> | [rest ->]]; [reflexivity | ].
      destruct r as [chunk | err]; [subst chunk | ]; reflexivity.
    - cbn. apply String.eqb_neq in Hc. now rewrite Hc, IH. }
  split.
  - intros Htail. rewrite recv_all_run, Hdata. unfold extend. rewrite !app_nil_r.
    rewrite (Hcount (Chunk "")).
    + destruct Htail as [-> | [rest ->]]; reflexivity.
    + destruct Htail as [-> | [rest ->]]; [now left | right; now exists rest].
    + reflexivity.
  - intros err rest ->. rewrite recv_all_run, Hdata. unfold extend. rewrite !app_nil_r.
    rewrite (Hcount (RecvError err)); [reflexivity | right; now exists rest | exact I].
Qed.

(** X11.  When a [recv] raises, the pass of the loop stores nothing and
    prints the error as an error of the socket server; the accepted
    connection is not closed. *)
Theorem recv_error_leaves_connection_open (c : connection) (st : state) (err : exn) :
  received (recvs c) "" = Raise err ->
  exists st',
    serve_one (Accepted c) st = (Ok tt, st')
    /\ collection st' = collection st
    /\ inserts (calls st') = inserts (calls st)
    /\ closes (calls st') = closes (calls st)
    /\ last (stdout st') = Some ("Error in socket server: " ++ exn_text err).
Proof.
  intros Hrecv. rewrite serve_one_run. cbn zeta. rewrite Hrecv.
  eexists. split; [reflexivity | ]. cbn.
  destruct (recvs_count_nothing (recv_count (recvs c))) as (_ & _ & _ & Hi).
  rewrite app_nil_r, inserts_app, closes_app. cbn. rewrite Hi, closes_recvs.
  rewrite app_nil_r, Nat.add_0_r.
  split; [reflexivity | ]. split; [reflexivity | ]. split; [reflexivity | ].
  apply last_two.
Qed.

(** X12.  When the datastore refuses the insert, the document is lost:
    [insert_one] was called once with it, the collection is as before,
    the error is printed as an error of saving, no success line is
    printed, and the connection is closed. *)
Theorem insert_failure_loses_message (c : connection) (st : state) data doc err :
  received (recvs c) "" = Ok data ->
  build_document c data = Ok doc ->
  insert_outcome c = Some err ->
  exists st',
    serve_one (Accepted c) st = (Ok tt, st')
    /\ collection st' = collection st
    /\ inserts (calls st') = (inserts (calls st) ++ [doc])%list
    /\ closes (calls st') = S (closes (calls st))
    /\ last (calls st') = Some Close
    /\ stdout st'
       = (stdout st ++ [("Connection from " ++ address c)%string;
                        if is_JSONDecodeError err
                        then ("Error parsing JSON: " ++ exn_text err)%string
                        else ("Error saving to MongoDB: " ++ exn_text err)%string])%list.
Proof.
  intros Hrecv Hbuild Hins. rewrite serve_one_run. cbn zeta.
  rewrite Hrecv, Hbuild, Hins.
  eexists. split; [reflexivity | ]. cbn.
  destruct (recvs_count_nothing (recv_count (recvs c))) as (_ & _ & _ & Hi).
  rewrite app_nil_r, inserts_app, closes_app. cbn.
  rewrite inserts_app, closes_app, Hi, closes_recvs. cbn.
  split; [reflexivity | ]. split; [reflexivity | ]. split; [lia | ].
  split; [ | reflexivity].
  rewrite app_comm_cons, app_assoc.
  change [InsertOne doc; Close] with ([InsertOne doc] ++ [Close])%list.
  rewrite app_assoc. apply last_snoc.
Qed.

(** X13.  When [accept] raises, the pass of the loop makes no other
    call, stores nothing, prints the error, and the loop goes on. *)
Theorem accept_error_is_survived (err : exn) (rest : list incoming) (st : state) :
  let st' := extend st [] ["Error in socket server: " ++ exn_text err] [Accept] in
  serve_one (AcceptError err) st = (Ok tt, st')
  /\ accept_loop (AcceptError err :: rest) st = accept_loop rest st'.
Proof.
  intros st'. subst st'.
  assert (serve_one (AcceptError err) st
          = (Ok tt, extend st [] ["Error in socket server: " ++ exn_text err] [Accept]))
    as Hrun by (now rewrite serve_one_run).
  split; [exact Hrun | now apply accept_loop_cons].
Qed.

(** X14.  What the server prints for bytes it cannot use depends on the
    class of the exception only: a JSON decode error is printed as an
    error of parsing, every other exception of the decoding (bytes that
    are not UTF-8, a nesting that is too deep) as an error of saving. *)
Theorem parse_failure_lines (c : connection) (st : state) data err :
  received (recvs c) "" = Ok data ->
  (utf8_decode data = Raise err
   \/ exists text, utf8_decode data = Ok text /\ json_loads text = Raise err) ->
  stdout (snd (serve_one (Accepted c) st))
  = (stdout st
     ++ [("Connection from " ++ address c)%string;
         match exn_cls err with
         | JSONDecodeError => ("Error parsing JSON: " ++ exn_text err)%string
         | _ => ("Error saving to MongoDB: " ++ exn_text err)%string
         end])%list.
Proof.
  intros Hrecv Hbad.
  assert (build_document c data = Raise err) as Hbuild.
  { unfold build_document. destruct Hbad as [-> | (text & -> & ->)]; reflexivity. }
  rewrite serve_one_run. cbn zeta. rewrite Hrecv, Hbuild. cbn.
  unfold failure_line, is_JSONDecodeError. destruct (exn_cls err); reflexivity.
Qed.

(** The collection after one pass of the loop. *)
Lemma serve_one_collection (inc : incoming) (st : state) :
  collection (snd (serve_one inc st)) = (collection st ++ stored_by inc)%list.
Proof.
  rewrite serve_one_run. unfold stored_by. destruct inc as [err | c]; cbn.
  { now rewrite app_nil_r. }
  destruct (received (recvs c) "") as [data | err]; cbn; [ | now rewrite app_nil_r].
  destruct (build_document c data) as [doc | err]; cbn; [ | now rewrite app_nil_r].
  destruct (insert_outcome c); cbn; [now rewrite app_nil_r | reflexivity].
Qed.

(** The collection after the loop. *)
Lemma accept_loop_collection (arrivals : list incoming) (st : state) :
  collection (snd (accept_loop arrivals st))
  = (collection st ++ List.concat (List.map stored_by arrivals))%list.
Proof.
  revert st. induction arrivals as [| inc rest IH]; intros st.
  - cbn. now rewrite app_nil_r.
  - destruct (serve_one_delta inc st) as (d & l & cs & Hrun & _).
    rewrite (accept_loop_cons inc rest st _ Hrun), IH.
    pose proof (serve_one_collection inc st) as Hcol. rewrite Hrun in Hcol.
    cbn [snd] in Hcol. rewrite Hcol. cbn [List.map List.concat].
    now rewrite app_assoc.
Qed.

(** X15.  The accept loop only adds to the collection: after any
    arrivals, the collection is the one before followed by the documents
    of the arrivals that were stored, in the order of arrival, at most
    one for each arrival. *)
Theorem accept_loop_appends (arrivals : list incoming) (st : state) :
  collection (snd (accept_loop arrivals st))
  = (collection st ++ List.concat (List.map stored_by arrivals))%list
  /\ List.length (List.concat (List.map stored_by arrivals)) <= List.length arrivals.
Proof.
  split; [apply accept_loop_collection | ].
  induction arrivals as [| inc rest IH]; [cbn; lia | ].
  cbn [List.map List.concat]. rewrite length_app. cbn [List.length].
  assert (List.length (stored_by inc) <= 1); [ | lia].
  unfold stored_by. destruct inc as [err | c]; [cbn; lia | ].
  destruct (received (recvs c) "") as [data | err]; [ | cbn; lia].
  destruct (build_document c data); [ | cbn; lia].
  destruct (insert_outcome c); cbn; lia.
Qed.

(** X16.  The loop keeps the collection well formed: when the clock
    gives four-digit years, every record that the loop adds has the
    four fields [date], [username], [message] and [_id], with a date in
    the timestamp format and an identifier under [_id]; so a collection
    of such records stays one. *)
Theorem accept_loop_keeps_records_well_formed (arrivals : list incoming) (st : state) :
  Forall sound_clock arrivals ->
  Forall well_formed_record (collection st) ->
  Forall well_formed_record (collection (snd (accept_loop arrivals st))).
Proof.
  intros Hclock Hst.
  rewrite accept_loop_collection.
  apply Forall_app. split; [exact Hst | ].
  induction Hclock as [| inc rest Hinc _ IH]; [constructor | ].
  cbn [List.map List.concat]. apply Forall_app. split; [ | exact IH].
  unfold stored_by. destruct inc as [err | c]; [constructor | ].
  destruct (received (recvs c) "") as [data | err]; [ | constructor].
  unfold build_document.
  destruct (utf8_decode data) as [text | err]; [ | constructor].
  destruct (json_loads text) as [v | err]; [ | constructor].
  destruct (get v "username" (JStr "")) as [username | err]; [ | constructor].
  destruct (get v "message" (JStr "")) as [message | err]; [ | constructor].
  destruct (insert_outcome c); constructor; [ | constructor].
  destruct (record_of_fields c (Json (JStr (strftime (now c)))) (Json username)
              (Json message)) as (Hdom & Hdate & _ & _ & Hid).
  split; [exact Hdom | split].
  - exists (strftime (now c)). split; [exact Hdate | ].
    apply strftime_matches. exact Hinc.
  - exists (new_id c). exact Hid.
Qed.

End MoreIngestProperties.

(** ** The start-up of the socket server *)

Section MoreStartupProperties.
Import Ingest.
Context `{PyLib}.
Variable e : env.

Lemma failures_first_success (f i n : nat) :
  f < n ->
  (forall k, k < f -> attempt_outcome e (i + k) <> None) ->
  attempt_outcome e (i + f) = None ->
  failures e i n = f.
Proof.
  revert f i. induction n as [| n IH]; intros f i Hf Hfail Hup; [lia | ].
  cbn [failures]. destruct f as [| f].
  - rewrite Nat.add_0_r in Hup. now rewrite Hup.
  - destruct (attempt_outcome e i) eqn:Hi.
    + f_equal. apply IH; [lia | | ].
      * intros k Hk. replace (S i + k) with (i + S k) by lia. apply Hfail. lia.
      * replace (S i + f) with (i + S f) by lia. exact Hup.
    + exfalso. apply (Hfail 0); [lia | ]. now rewrite Nat.add_0_r.
Qed.

(** The run of [socket_server] when the datastore answers at attempt [f]. *)
Lemma socket_server_started (arrivals : list incoming) (st : state) (f : nat) :
  f < max_retries ->
  (forall k, k < f -> attempt_outcome e k <> None) ->
  attempt_outcome e f = None ->
  socket_server e arrivals st
  = let connected :=
      ("Connected to MongoDB at " ++ MONGO_HOST e ++ ":" ++ str_of_int (MONGO_PORT e))%string in
    let listening :=
      ("Socket server listening on port " ++ str_of_int SOCKET_PORT)%string in
    match bind_outcome e with
    | Some err =>
        (Raise err,
         extend st [] (waiting_lines 0 f ++ [connected])
           (startup_calls e 0 f ++ [Socket; Setsockopt; Bind "0.0.0.0" SOCKET_PORT]))
    | None =>
        (Ok Serving,
         snd (accept_loop arrivals
                (extend st [] (waiting_lines 0 f ++ [connected; listening])
                   (startup_calls e 0 f
                    ++ [Socket; Setsockopt; Bind "0.0.0.0" SOCKET_PORT; Listen 5]))))
    end.
Proof.
  intros Hf Hfail Hup.
  assert (failures e 0 max_retries = f) as Hfailures by (now apply failures_first_success).
  pose proof (connect_loop_run e (max_retries - 1) 0 None st eq_refl) as Hloop.
  change (S (max_retries - 1)) with max_retries in Hloop. rewrite Hfailures in Hloop.
  apply Nat.ltb_lt in Hf. rewrite Hf in Hloop.
  unfold socket_server, bind, mbind, M_bind, mret, M_ret, raise.
  rewrite Hloop, print_run, !do_call_run.
  destruct (bind_outcome e) as [err | ]; cbn zeta.
  - rewrite !extend_extend. cbn [app]. now rewrite <- ?app_assoc.
  - rewrite do_call_run, print_run, !extend_extend. cbn [app]. rewrite <- ?app_assoc.
    cbn [app].
    match goal with |- context [accept_loop arrivals ?s] =>
      destruct (accept_loop_delta arrivals s) as (d & l & c & Hrun & _); rewrite Hrun
    end.
    reflexivity.
Qed.

(** X17.  When the datastore first answers at attempt [f] below 30 and
    the port is free, the server has made [f] failed attempts, each
    followed by the delay, and the one that succeeds (when no
    constructor raises, every attempt is a construction and a check); it
    then creates the listening socket, binds it to port 5001 on all
    interfaces and listens with a backlog of 5, once, and accepts once
    for each arrival.  It has printed one waiting line for each failed
    attempt, then that it is connected and that it listens. *)
Theorem startup_binds_after_first_answer (arrivals : list incoming) (f : nat) :
  f < 30 ->
  (forall k, k < f -> attempt_outcome e k <> None) ->
  attempt_outcome e f = None ->
  bind_outcome e = None ->
  let run := socket_server e arrivals initial in
  let attempt := [MongoClient (mongo_uri e) 2000; ServerInfo] in
  fst run = Ok Serving
  /\ (exists served,
        calls (snd run)
        = (startup_calls e 0 f
           ++ [Socket; Setsockopt; Bind "0.0.0.0" 5001; Listen 5] ++ served)%list
        /\ ((forall k, k < f -> client_outcome e k = None) ->
            calls (snd run)
            = (List.concat (replicate f (attempt ++ [Sleep 1])) ++ attempt
               ++ [Socket; Setsockopt; Bind "0.0.0.0" 5001; Listen 5] ++ served)%list)
        /\ accepts served = List.length arrivals
        /\ binds served = 0
        /\ attempts_made served = 0)
  /\ (exists printed,
        stdout (snd run)
        = (waiting_lines 0 f
           ++ [("Connected to MongoDB at " ++ MONGO_HOST e ++ ":"
                ++ str_of_int (MONGO_PORT e))%string;
               "Socket server listening on port 5001"] ++ printed)%list).
Proof.
  intros Hf Hfail Hup Hbind run attempt. subst run.
  rewrite (socket_server_started arrivals initial f Hf Hfail Hup). cbn zeta.
  rewrite Hbind.
  match goal with |- context [accept_loop arrivals ?s] =>
    destruct (accept_loop_delta arrivals s) as (d & l & c & Hrun & Ha & Hb & Hm);
    rewrite Hrun
  end.
  cbn [fst snd calls stdout extend initial app].
  split; [reflexivity | ]. split.
  - exists c. split; [now rewrite <- !app_assoc | ]. split; [ | auto].
    intros Hc. rewrite startup_calls_checked.
    + subst attempt. now rewrite <- !app_assoc.
    + intros k Hk. destruct (decide (k = f)) as [-> | Hne]; [ | apply Hc; lia].
      unfold attempt_outcome in Hup. now destruct (client_outcome e f).
  - exists l. now rewrite <- !app_assoc.
Qed.

(** X18.  When the datastore answers but [bind] raises, [socket_server]
    raises the error of [bind]: the exception is not caught, the server
    never listens and never accepts, and nothing is stored. *)
Theorem bind_failure_is_fatal (arrivals : list incoming) (f : nat) (err : exn) :
  f < 30 ->
  (forall k, k < f -> attempt_outcome e k <> None) ->
  attempt_outcome e f = None ->
  bind_outcome e = Some err ->
  let run := socket_server e arrivals initial in
  fst run = Raise err
  /\ binds (calls (snd run)) = 1
  /\ listens (calls (snd run)) = 0
  /\ accepts (calls (snd run)) = 0
  /\ collection (snd run) = [].
Proof.
  intros Hf Hfail Hup Hbind run. subst run.
  rewrite (socket_server_started arrivals initial f Hf Hfail Hup). cbn zeta.
  rewrite Hbind. cbn [fst snd calls collection extend initial app].
  rewrite binds_app, listens_app, accepts_app, binds_startup.
  assert (forall i, listens (startup_calls e i f) = 0 /\ accepts (startup_calls e i f) = 0)
    as Hquiet.
  { clear. induction f as [| f IH]; intros i; cbn [startup_calls].
    - unfold attempt_calls. destruct (client_outcome e i); split; reflexivity.
    - rewrite listens_app, accepts_app. destruct (IH (S i)) as [IH1 IH2].
      unfold attempt_calls. destruct (client_outcome e i); cbn; auto. }
  destruct (Hquiet 0) as [-> ->].
  cbn. auto.
Qed.

End MoreStartupProperties.

(** ** What the socket server prints *)

Section MorePrintProperties.
Import Ingest.
Context `{PyLib}.
Variable e : env.

Lemma failures_spec (i n : nat) :
  failures e i n < n ->
  (forall k, k < failures e i n -> attempt_outcome e (i + k) <> None)
  /\ attempt_outcome e (i + failures e i n) = None.
Proof.
  revert i. induction n as [| n IH]; intros i Hlt; [lia | ].
  cbn [failures] in *. destruct (attempt_outcome e i) eqn:Hi.
  - destruct (IH (S i)) as [Hfail Hup]; [lia | ]. split.
    + intros [| k] Hk; [rewrite Nat.add_0_r; congruence | ].
      replace (i + S k) with (S i + k) by lia. apply Hfail. lia.
    + replace (i + S (failures e (S i) n)) with (S i + failures e (S i) n) by lia.
      exact Hup.
  - split; [intros k Hk; lia | ]. now rewrite Nat.add_0_r.
Qed.

Lemma waiting_lines_first_char (i n : nat) :
  Forall (fun line => first_char line = Some "W"%char) (waiting_lines i n).
Proof.
  revert i. induction n as [| n IH]; intros i; constructor; [reflexivity | apply IH].
Qed.

Lemma serve_one_lines (inc : incoming) (st : state) :
  exists docs lines cs,
    serve_one inc st = (Ok tt, extend st docs lines cs)
    /\ Forall (fun line => first_char line <> Some "F"%char) lines.
Proof.
  rewrite serve_one_run. destruct inc as [err | c]; cbn zeta.
  { do 3 eexists. split; [reflexivity | ]. repeat constructor; discriminate. }
  destruct (received (recvs c) "") as [data | err].
  2: { do 3 eexists. split; [reflexivity | ]. repeat constructor; discriminate. }
  destruct (build_document c data) as [doc | err].
  2: { do 3 eexists. split; [reflexivity | ]. unfold failure_line.
       destruct (is_JSONDecodeError err); repeat constructor; discriminate. }
  destruct (insert_outcome c) as [err | ].
  - do 3 eexists. split; [reflexivity | ]. unfold failure_line.
    destruct (is_JSONDecodeError err); repeat constructor; discriminate.
  - do 3 eexists. split; [reflexivity | ]. repeat constructor; discriminate.
Qed.

Lemma accept_loop_lines (arrivals : list incoming) (st : state) :
  exists docs lines cs,
    accept_loop arrivals st = (Ok tt, extend st docs lines cs)
    /\ Forall (fun line => first_char line <> Some "F"%char) lines.
Proof.
  revert st. induction arrivals as [| inc rest IH]; intros st.
  { exists [], [], []. rewrite extend_nothing. split; [reflexivity | constructor]. }
  destruct (serve_one_lines inc st) as (d1 & l1 & c1 & Hrun & Hl1).
  destruct (IH (extend st d1 l1 c1)) as (d2 & l2 & c2 & Hrun2 & Hl2).
  exists (d1 ++ d2)%list, (l1 ++ l2)%list, (c1 ++ c2)%list.
  rewrite (accept_loop_cons inc rest st _ Hrun), Hrun2, extend_extend.
  split; [reflexivity | ]. apply Forall_app. now split.
Qed.

(** X19.  The test of [client] after the retry loop never fails: whatever
    the datastore, the port and the arrivals do, the server never prints
    that it failed to connect; a start-up that fails is reported by the
    line of the last attempt instead. *)
Theorem never_prints_failed_to_connect (arrivals : list incoming) :
  ~ In "Failed to connect to MongoDB"
       (stdout (snd (socket_server e arrivals initial))).
Proof.
  assert (Forall (fun line => first_char line <> Some "F"%char)
            (stdout (snd (socket_server e arrivals initial)))) as Hall.
  { assert (forall i n, Forall (fun line => first_char line <> Some "F"%char)
                          (waiting_lines i n)) as Hwait.
    { intros i n. eapply Forall_impl; [apply waiting_lines_first_char | ].
      intros line Hline. cbn in Hline. rewrite Hline. discriminate. }
    destruct (Nat.ltb (failures e 0 max_retries) max_retries) eqn:Hlt.
    - apply Nat.ltb_lt in Hlt.
      destruct (failures_spec 0 max_retries Hlt) as [Hfail Hup].
      rewrite (socket_server_started e arrivals initial _ Hlt Hfail Hup). cbn zeta.
      destruct (bind_outcome e) as [err | ].
      + cbn [snd stdout extend initial app]. apply Forall_app.
        split; [apply Hwait | ]. repeat constructor; discriminate.
      + match goal with |- context [accept_loop arrivals ?s] =>
          destruct (accept_loop_lines arrivals s) as (d & l & c & Hrun & Hl);
          rewrite Hrun
        end.
        cbn [snd stdout extend initial app]. rewrite !Forall_app.
        split; [split; [apply Hwait | ] | exact Hl].
        repeat constructor; discriminate.
    - pose proof (socket_server_run e arrivals initial) as Hrun. cbn zeta in Hrun.
      rewrite Hlt in Hrun. rewrite Hrun. cbn [snd stdout extend initial app].
      apply Forall_app. split; [apply Hwait | ].
      unfold giving_up. destruct (attempt_outcome e (max_retries - 1));
        repeat constructor; discriminate. }
  intros Hin. apply list_elem_of_In in Hin. rewrite Forall_forall in Hall.
  apply (Hall _ Hin). reflexivity.
Qed.

End MorePrintProperties.

(** ** The timestamp *)

Lemma matches_length (p : list pattern_item) (s : string) :
  matches p s = true -> String.length s = List.length p.
Proof.
  revert s. induction p as [| item p IH]; intros s Hm.
  - destruct s; [reflexivity | discriminate].
  - destruct s as [| a s]; [destruct item; discriminate | ].
    destruct item; cbn in Hm; apply andb_true_iff in Hm as [_ Hm];
      cbn; f_equal; now apply IH.
Qed.

Lemma append_inj_length (a a' b b' : string) :
  String.length a = String.length a' -> a ++ b = a' ++ b' -> a = a' /\ b = b'.
Proof.
  revert a'. induction a as [| x a IH]; intros [| x' a'] Hlen Heq;
    try discriminate Hlen.
  - split; [reflexivity | exact Heq].
  - change (String x (a ++ b) = String x' (a' ++ b')) in Heq.
    injection Heq as -> Heq. injection Hlen as Hlen.
    destruct (IH a' Hlen Heq) as [-> ->]. split; reflexivity.
Qed.

Lemma digit_inj (n n' : Z) : digit n = digit n' -> (n mod 10 = n' mod 10)%Z.
Proof.
  unfold digit. intros Heq. injection Heq as Heq.
  assert (0 <= n mod 10 < 10)%Z as Hn by (apply Z.mod_pos_bound; lia).
  assert (0 <= n' mod 10 < 10)%Z as Hn' by (apply Z.mod_pos_bound; lia).
  apply (f_equal N_of_ascii) in Heq.
  rewrite !N_ascii_embedding in Heq by lia. lia.
Qed.

Lemma zero_fill_length (w : nat) (n : Z) :
  (0 <= n < 10 ^ Z.of_nat w)%Z -> String.length (zero_fill w n) = w.
Proof.
  intros Hn. rewrite (matches_length _ _ (zero_fill_matches w n Hn)).
  apply length_replicate.
Qed.

Lemma zero_fill_inj (w : nat) (n n' : Z) :
  (0 <= n < 10 ^ Z.of_nat w)%Z -> (0 <= n' < 10 ^ Z.of_nat w)%Z ->
  zero_fill w n = zero_fill w n' -> n = n'.
Proof.
  revert n n'. induction w as [| w IH]; intros n n' Hn Hn' Heq.
  - cbn in Hn, Hn'. lia.
  - rewrite Nat2Z.inj_succ, Z.pow_succ_r in Hn, Hn' by lia.
    assert (0 <= n / 10 < 10 ^ Z.of_nat w)%Z as Hq
      by (split; [apply Z.div_pos; lia | apply Z.div_lt_upper_bound; lia]).
    assert (0 <= n' / 10 < 10 ^ Z.of_nat w)%Z as Hq'
      by (split; [apply Z.div_pos; lia | apply Z.div_lt_upper_bound; lia]).
    change (zero_fill w (n / 10) ++ digit n = zero_fill w (n' / 10) ++ digit n') in Heq.
    apply append_inj_length in Heq as [Hhigh Hlow];
      [ | now rewrite !zero_fill_length].
    apply IH in Hhigh; [ | assumption ..]. apply digit_inj in Hlow.
    rewrite (Z.div_mod n 10), (Z.div_mod n' 10) by lia. congruence.
Qed.

(** X20.  The date of a record tells the clock reading: two clock
    readings with four-digit years that give the same text are the
    same, down to the microsecond; and the text has 26 characters. *)
Theorem strftime_injective (dt1 dt2 : Ingest.datetime) :
  clock_reading dt1 -> clock_reading dt2 ->
  String.length (Ingest.strftime dt1) = 26
  /\ (Ingest.strftime dt1 = Ingest.strftime dt2 -> dt1 = dt2).
Proof.
  intros H1 H2. split.
  { rewrite (matches_length _ _ (strftime_matches dt1 H1)). reflexivity. }
  destruct H1 as (Hy & Hmo & Hd & Hh & Hmi & Hs & Hus).
  destruct H2 as (Hy' & Hmo' & Hd' & Hh' & Hmi' & Hs' & Hus').
  destruct dt1 as [y mo d h mi s us], dt2 as [y' mo' d' h' mi' s' us'].
  unfold Ingest.strftime. cbn [Ingest.year Ingest.month Ingest.day Ingest.hour
    Ingest.minute Ingest.second Ingest.microsecond] in *.
  intros Heq.
  repeat (apply append_inj_length in Heq as [?%zero_fill_inj Heq];
          [ | cbn; lia .. | rewrite !zero_fill_length by (cbn; lia); reflexivity ];
          apply append_inj_length in Heq as [_ Heq]; [ | reflexivity]).
  apply zero_fill_inj in Heq; [ | cbn; lia ..].
  congruence.
Qed.

(** ** The further properties at the sample inputs *)

Section MoreWitnesses.
Import Sample MoreSample.
#[local] Existing Instance Ref.lib.

Lemma post_other_path_not_found_witness :
  exists st',
    Http.do_POST ingest_down post_elsewhere Http.initial = (Ok tt, st')
    /\ Http.status_of (Http.output st') = Some 404%Z
    /\ Http.body_of (Http.output st') = "<h1>Not here</h1>"
    /\ Http.sock_calls st' = [].
Proof.
  refine (post_other_path_not_found ingest_down post_elsewhere "/submit" _ _);
    [vm_compute; reflexivity | discriminate].
Defined.

(** A target that [urlparse] refuses, and a route whose file is a
    directory. *)
Lemma get_answer_complete_witness :
  Http.do_GET ingest_up (get "http://[/") Http.initial
  = (Raise (Exn ValueError "Invalid IPv6 URL"), Http.initial)
  /\ exists st',
       Http.do_GET logo_is_directory (get "/logo.png") Http.initial
       = (Raise is_a_directory, st')
       /\ Http.status_of (Http.output st') = Some 200%Z
       /\ Http.body_of (Http.output st') = "".
Proof.
  split; [exact (get_answer_complete ingest_up (get "http://[/")) | ].
  generalize (get_answer_complete logo_is_directory (get "/logo.png")).
  change (urlparse_path (Http.req_path (get "/logo.png"))) with (@Ok string "/logo.png").
  intros (r & st' & Hrun & _ & _ & Hiff & Hfile & _).
  assert (Http.status_of (Http.output st') = Some 200%Z) as Hst.
  { apply Hiff. exists "logo.png". split; [cbn; tauto | vm_compute; eauto]. }
  specialize (Hfile "logo.png" Hst). vm_compute in Hfile.
  destruct Hfile as [-> Hbody]; [tauto | ].
  exists st'. split; [exact Hrun | split; [exact Hst | exact Hbody]].
Defined.

Lemma get_content_type_witness :
  header_of "Content-type"
    (Http.output (snd (Http.do_GET ingest_up (get "/?next=1") Http.initial)))
  = Some "text/html".
Proof.
  refine (get_content_type ingest_up (get "/?next=1") "/" "index.html" "text/html"
            "<h1>Home</h1>" _ _ _ _);
    [vm_compute; reflexivity | left; reflexivity | left; reflexivity
     | vm_compute; reflexivity].
Defined.


Lemma post_undecodable_body_raises_witness :
  Http.do_POST ingest_up post_bad_length Http.initial
  = (Raise (Exn ValueError "invalid literal for int() with base 10: 'twelve'"),
     Http.initial)
  /\ Http.do_POST ingest_up post_huge_length Http.initial
     = (Raise (Exn OverflowError "cannot fit 'int' into an index-sized integer"),
        Http.initial).
Proof.
  split.
  - refine (post_undecodable_body_raises ingest_up post_bad_length _ _ _);
      [vm_compute; reflexivity | left; exists "twelve"; split; vm_compute; reflexivity].
  - refine (post_undecodable_body_raises ingest_up post_huge_length _ _ _);
      [vm_compute; reflexivity | ].
    right; left. exists (10 ^ 30)%Z.
    split; [vm_compute; reflexivity | split; [lia | reflexivity]].
Defined.

Lemma post_without_content_length_witness :
  Http.do_POST ingest_up post_no_length Http.initial
  = (Ok tt, {| Http.sock_calls := []; Http.output := answer_400 |}).
Proof.
  refine (post_without_content_length ingest_up post_no_length _ _ _ _);
    vm_compute; reflexivity.
Defined.

Lemma post_200_iff_forwarded_witness :
  Http.status_of (Http.output (snd (Http.do_POST ingest_up post_alice Http.initial)))
  = Some 200%Z
  <-> "alice" <> "" /\ "hello" <> ""
      /\ Http.connect_outcome ingest_up = None
      /\ Http.sendall_outcome ingest_up = None.
Proof.
  refine (proj1 (post_200_iff_forwarded ingest_up post_alice
                   (Ref.parse "username=alice&message=hello") "alice" "hello" _ _ _ _));
    vm_compute; reflexivity.
Defined.

Lemma post_reads_declared_length_witness :
  Http.do_POST ingest_up post_alice Http.initial
  = Http.do_POST ingest_up post_alice_long Http.initial.
Proof.
  refine (post_reads_declared_length ingest_up post_alice post_alice_long 28 _ _ _ _ _);
    [vm_compute; reflexivity | vm_compute; reflexivity | vm_compute; reflexivity
     | lia | vm_compute; reflexivity].
Defined.

Lemma recv_loop_accumulates_witness :
  Ingest.recv_all [Ingest.Chunk "ab"; Ingest.Chunk "cd"; Ingest.Chunk ""; Ingest.Chunk "ef"]
    "" Ingest.initial
  = (Ok "abcd",
     {| Ingest.collection := []; Ingest.stdout := [];
        Ingest.calls := replicate 3 (Ingest.Recv 1024) |}).
Proof.
  refine (proj1 (recv_loop_accumulates ["ab"; "cd"] [Ingest.Chunk ""; Ingest.Chunk "ef"]
                   Ingest.initial _) _);
    [repeat constructor; discriminate | right; eexists; reflexivity].
Defined.

Lemma recv_error_leaves_connection_open_witness :
  exists st',
    Ingest.serve_one (Ingest.Accepted connection_reset) Ingest.initial = (Ok tt, st')
    /\ Ingest.collection st' = []
    /\ Ingest.inserts (Ingest.calls st') = []
    /\ closes (Ingest.calls st') = 0
    /\ last (Ingest.stdout st')
       = Some "Error in socket server: [Errno 104] Connection reset by peer".
Proof.
  refine (recv_error_leaves_connection_open connection_reset Ingest.initial reset _).
  reflexivity.
Defined.

Lemma insert_failure_loses_message_witness :
  exists st',
    Ingest.serve_one (Ingest.Accepted connection_refused) Ingest.initial = (Ok tt, st')
    /\ Ingest.collection st' = []
    /\ Ingest.inserts (Ingest.calls st')
       = [[("date", Json (JStr "2024-03-09 07:05:00.004211"));
           ("username", Json (JStr "alice")); ("message", Json (JStr "hello"))]]
    /\ closes (Ingest.calls st') = 1
    /\ last (Ingest.calls st') = Some Ingest.Close
    /\ Ingest.stdout st'
       = ["Connection from ('127.0.0.1', 50414)"; "Error saving to MongoDB: not primary"].
Proof.
  refine (insert_failure_loses_message connection_refused Ingest.initial wire_alice
            [("date", Json (JStr "2024-03-09 07:05:00.004211"));
             ("username", Json (JStr "alice")); ("message", Json (JStr "hello"))]
            not_primary _ _ _);
    vm_compute; reflexivity.
Defined.

Lemma parse_failure_lines_witness :
  Ingest.stdout (snd (Ingest.serve_one (Ingest.Accepted connection_latin) Ingest.initial))
  = ["Connection from ('127.0.0.1', 50412)";
     "Error saving to MongoDB: 'utf-8' codec can't decode bytes: invalid data"].
Proof.
  refine (parse_failure_lines connection_latin Ingest.initial
            (String (ascii_of_N 255) "abc")
            (Exn UnicodeDecodeError "'utf-8' codec can't decode bytes: invalid data") _ _);
    [vm_compute; reflexivity | left; vm_compute; reflexivity].
Defined.

Lemma accept_loop_keeps_records_well_formed_witness :
  Forall well_formed_record
    (Ingest.collection
       (snd (Ingest.accept_loop
               [Ingest.Accepted connection_alice; Ingest.Accepted connection_garbage;
                Ingest.Accepted connection_alice] Ingest.initial))).
Proof.
  refine (accept_loop_keeps_records_well_formed _ Ingest.initial _ _);
    [repeat constructor; vm_compute; intuition discriminate | constructor].
Defined.

Lemma startup_binds_after_first_answer_witness :
  fst (Ingest.socket_server datastore_late [Ingest.Accepted connection_alice] Ingest.initial)
  = Ok Ingest.Serving.
Proof.
  refine (proj1 (startup_binds_after_first_answer datastore_late
                   [Ingest.Accepted connection_alice] 3 _ _ _ _));
    [lia | | reflexivity | reflexivity].
  intros k Hk. destruct k as [| [| [| k]]]; [discriminate .. | lia].
Defined.

Lemma bind_failure_is_fatal_witness :
  fst (Ingest.socket_server datastore_late_port_taken [Ingest.Accepted connection_alice]
         Ingest.initial)
  = Raise in_use.
Proof.
  refine (proj1 (bind_failure_is_fatal datastore_late_port_taken
                   [Ingest.Accepted connection_alice] 3 in_use _ _ _ _));
    [lia | | reflexivity | reflexivity].
  intros k Hk. destruct k as [| [| [| k]]]; [discriminate .. | lia].
Defined.

Lemma strftime_injective_witness :
  String.length (Ingest.strftime morning) = 26
  /\ (Ingest.strftime morning = Ingest.strftime evening -> morning = evening).
Proof.
  refine (strftime_injective morning evening _ _); vm_compute; intuition discriminate.
Defined.

End MoreWitnesses.
